(** * lib/blkid/devname.c: device discovery for the blkid cache

    A shallow embedding of [devname.c] (e2fsprogs, libblkid): the name-keyed
    lookup [blkid_get_dev], the single-device resolver [probe_one], the
    device-mapper, EVMS, LVM and /proc/partitions probers, and the
    orchestrator [probe_all] with its two public entry points.

    Conventions of the embedding.
    - A [blkid_dev] pointer is the position of the record in the cache's
      device list ([bic_devs], kept in list order as [list_add_tail] builds
      it); [NULL] is [None].
    - The C library ([fgets], [sscanf], [strncmp], [isdigit]) is modelled
      for the directives and arguments this file uses.  Text files are
      [string]s without NUL bytes.
    - The operating system (files under /proc, the device-mapper tables,
      [stat]) is a read-only [world]; the collaborators defined in other
      files of the library ([blkid_verify], [blkid_read_cache], ...) are
      fields of [externals].
    - Every call of [probe_one], every query of a discovery source and every
      call of [dm_device_is_leaf] is recorded in a trace of [event]s carried
      next to the cache.
    - [malloc] and [blkid_strdup] are taken to succeed; [blkid_new_dev] may
      fail, as the code tests for it.
    - The name buffers [ptname0] and [ptname1] of [probe_all] have 128
      bytes, and the directive that fills them stores up to 128 characters
      and a terminator. A name of 128 characters or more in
      /proc/partitions overruns its buffer, and what the program does from
      there on is undefined. The embedding keeps a name as [sscanf] read
      it: it describes the program on reports whose names fit
      ([name_fits]: fewer than 128 characters), and the properties that
      speak of the stored name of an arbitrary line assume so. *)

From Stdlib Require Import ZArith List Bool Ascii String Lia.
Import ListNotations.

Local Open Scope string_scope.
Local Open Scope list_scope.
Local Open Scope Z_scope.

(** ** Constants and macros of blkidP.h, blkid.h and the system headers

    [devname.c] includes "blkidP.h", which is not part of the sources at
    hand; the constants it takes from there (and the [makedev] macro and
    the [HAVE_DEVMAPPER] switch of the build) are parameters of the
    development. *)
Record blkid_header : Type := {
  BLKID_DEV_FIND : Z;
  BLKID_DEV_CREATE : Z;
  BLKID_DEV_VERIFY : Z;
  BLKID_DEV_NORMAL : Z;
  BLKID_BIC_FL_PROBED : Z;
  BLKID_BIC_FL_CHANGED : Z;
  BLKID_PROBE_INTERVAL : Z;
  BLKID_ERR_PROC : Z;
  BLKID_ERR_PARAM : Z;
  BLKID_PRI_DM : Z;
  BLKID_PRI_EVMS : Z;
  BLKID_PRI_LVM : Z;
  BLKID_PRI_MD : Z;
  INT_MIN : Z;
  makedev : Z -> Z -> Z;
  HAVE_DEVMAPPER : bool
}.

(** ** <ctype.h> and <string.h> *)

Definition isspace (c : ascii) : bool :=
  let n := nat_of_ascii c in
  (n =? 32)%nat || ((9 <=? n)%nat && (n <=? 13)%nat).

Definition isdigit (c : ascii) : bool :=
  let n := nat_of_ascii c in
  (48 <=? n)%nat && (n <=? 57)%nat.

Definition digit_value (c : ascii) : Z := Z.of_nat (nat_of_ascii c) - 48.

(** [strlen] *)
Definition strlen (s : string) : nat := String.length s.

(** A name that fits, with its terminator, the 128 bytes of [ptname0] or
    [ptname1]. *)
Definition name_fits (name : string) : Prop := (strlen name < 128)%nat.

(** The first [n] characters of a string (all of it when shorter). *)
Fixpoint str_take (n : nat) (s : string) : string :=
  match n, s with
  | S n', String c s' => String c (str_take n' s')
  | _, _ => ""
  end.

(** [strncmp a b n] compares at most [n] characters and stops at the
    terminating NUL of either string; only whether the result is zero is
    used by the callers. *)
Definition strncmp_is_zero (a b : string) (n : nat) : bool :=
  String.eqb (str_take n a) (str_take n b).

(** [strcmp a b == 0] *)
Definition strcmp_is_zero (a b : string) : bool := String.eqb a b.

(** The last character of a string, [ptname[strlen(ptname) - 1]]. *)
Fixpoint last_char (s : string) : option ascii :=
  match s with
  | "" => None
  | String c "" => Some c
  | String _ s' => last_char s'
  end.

(** ** <stdio.h>: fgets *)

(** [fgets_all size content] is the sequence of buffers that successive
    calls [fgets(buf, size, f)] deliver until end of file: each holds at
    most [size - 1] characters and ends after the first newline. [room] is
    the space left in the buffer being filled, [acc] its content so far,
    in reverse. *)
Fixpoint rev_string (acc : string) (s : string) : string :=
  match s with
  | "" => acc
  | String c s' => rev_string (String c acc) s'
  end.

Definition newline : ascii := ascii_of_nat 10.

Fixpoint fgets_from (size room : nat) (acc : string) (s : string)
  : list string :=
  match s with
  | "" => match acc with "" => [] | _ => [rev_string "" acc] end
  | String c s' =>
      match room with
      | O =>
          (* buffer full: deliver it, [c] starts the next one *)
          rev_string "" acc ::
          (if Ascii.eqb c newline
           then String c "" :: fgets_from size (size - 1) "" s'
           else fgets_from size (size - 2) (String c "") s')
      | S room' =>
          if Ascii.eqb c newline
          then rev_string "" (String c acc) :: fgets_from size (size - 1) "" s'
          else fgets_from size room' (String c acc) s'
      end
  end.

Definition fgets_all (size : nat) (content : string) : list string :=
  fgets_from size (size - 1) "" content.

(** ** <stdio.h>: sscanf, for the directives used in this file *)

Inductive directive : Type :=
| DSpace                                  (* white space in the format *)
| DChar (c : ascii)                       (* an ordinary character *)
| DInt                                    (* %d *)
| DUll                                    (* %llu *)
| DSkipString                             (* %*s *)
| DScanset (width : option nat) (excluded : list ascii).  (* %[^...] *)

Inductive value : Type :=
| VInt (z : Z)
| VStr (s : string).

Inductive failure : Type := InputFailure | MatchingFailure.

Inductive step_result : Type :=
| Matched (v : option value) (rest : string)
| Failed (f : failure).

Fixpoint skip_space (s : string) : string :=
  match s with
  | String c s' => if isspace c then skip_space s' else s
  | "" => ""
  end.

(** Skip the maximal run of non-space characters ([%s]). *)
Fixpoint skip_nonspace (s : string) : string :=
  match s with
  | String c s' => if isspace c then s else skip_nonspace s'
  | "" => ""
  end.

(** Read the maximal run of decimal digits, accumulating its value. *)
Fixpoint scan_digits (acc : Z) (s : string) : Z * string :=
  match s with
  | String c s' =>
      if isdigit c then scan_digits (10 * acc + digit_value c) s' else (acc, s)
  | "" => (acc, "")
  end.

Definition starts_with_digit (s : string) : bool :=
  match s with
  | String c _ => isdigit c
  | "" => false
  end.

(** An optionally signed decimal number: [Some (negative, magnitude, rest)],
    or [None] when no digit follows the optional sign. *)
Definition scan_number (s : string) : option (bool * Z * string) :=
  let '(neg, s1) :=
    match s with
    | String c s' =>
        if Ascii.eqb c "-" then (true, s')
        else if Ascii.eqb c "+" then (false, s')
        else (false, s)
    | "" => (false, s)
    end in
  if starts_with_digit s1
  then let '(m, rest) := scan_digits 0 s1 in Some (neg, m, rest)
  else None.

(** The value [%d] stores in an [int]: the number is converted as a [long]
    (saturating at the bounds of 64 bits) and truncated to 32 bits. *)
Definition wrap_int (z : Z) : Z :=
  (z + 2 ^ 31) mod 2 ^ 32 - 2 ^ 31.

Definition to_int (neg : bool) (m : Z) : Z :=
  let v := if neg then - m else m in
  wrap_int (Z.max (- 2 ^ 63) (Z.min (2 ^ 63 - 1) v)).

(** The value [%llu] stores: saturating at [ULLONG_MAX], a leading minus
    sign negating in the unsigned type. *)
Definition to_ull (neg : bool) (m : Z) : Z :=
  if 2 ^ 64 - 1 <? m then 2 ^ 64 - 1
  else if neg then (- m) mod 2 ^ 64 else m.

Definition in_scanset (excluded : list ascii) (c : ascii) : bool :=
  negb (existsb (Ascii.eqb c) excluded).

(** The longest prefix made of characters of the scanset, at most [width]
    of them, and what follows it. *)
Fixpoint scan_set (width : option nat) (excluded : list ascii) (s : string)
  : string * string :=
  match s with
  | String c s' =>
      match width with
      | Some O => ("", s)
      | _ =>
          if in_scanset excluded c
          then let '(t, rest) :=
                 scan_set (option_map Nat.pred width) excluded s' in
               (String c t, rest)
          else ("", s)
      end
  | "" => ("", "")
  end.

Definition scan_directive (d : directive) (s : string) : step_result :=
  match d with
  | DSpace => Matched None (skip_space s)
  | DChar c =>
      match s with
      | "" => Failed InputFailure
      | String a s' =>
          if Ascii.eqb a c then Matched None s' else Failed MatchingFailure
      end
  | DInt =>
      match skip_space s with
      | "" => Failed InputFailure
      | s1 =>
          match scan_number s1 with
          | Some (neg, m, rest) => Matched (Some (VInt (to_int neg m))) rest
          | None => Failed MatchingFailure
          end
      end
  | DUll =>
      match skip_space s with
      | "" => Failed InputFailure
      | s1 =>
          match scan_number s1 with
          | Some (neg, m, rest) => Matched (Some (VInt (to_ull neg m))) rest
          | None => Failed MatchingFailure
          end
      end
  | DSkipString =>
      match skip_space s with
      | "" => Failed InputFailure
      | s1 => Matched None (skip_nonspace s1)
      end
  | DScanset width excluded =>
      match s with
      | "" => Failed InputFailure
      | _ =>
          match scan_set width excluded s with
          | ("", _) => Failed MatchingFailure
          | (t, rest) => Matched (Some (VStr t)) rest
          end
      end
  end.

Definition is_conversion (d : directive) : bool :=
  match d with
  | DSpace | DChar _ => false
  | _ => true
  end.

(** Run the directives in order. The result lists the values assigned, says
    whether any conversion (assigned or suppressed) completed, and gives
    the failure that stopped the scan, if any. *)
Fixpoint scan_format (fmt : list directive) (s : string)
  : list value * bool * option failure :=
  match fmt with
  | [] => ([], false, None)
  | d :: fmt' =>
      match scan_directive d s with
      | Failed f => ([], false, Some f)
      | Matched v rest =>
          let '(vs, conv, f) := scan_format fmt' rest in
          (match v with Some x => x :: vs | None => vs end,
           is_conversion d || conv, f)
      end
  end.

Definition EOF : Z := -1.

(** [sscanf]: the number of values assigned, or [EOF] on an input failure
    before the first conversion; and the values, which the caller's
    variables hold afterwards. *)
Definition sscanf (s : string) (fmt : list directive) : Z * list value :=
  let '(vs, conv, f) := scan_format fmt s in
  match f, conv with
  | Some InputFailure, false => (EOF, vs)
  | _, _ => (Z.of_nat (List.length vs), vs)
  end.

Definition literal (s : string) : list directive :=
  map DChar (list_ascii_of_string s).

(** " %d %d %llu %128[^\n ]": the width counts the characters of the name,
    not the terminator stored after them. *)
Definition fmt_partitions : list directive :=
  [DSpace; DInt; DSpace; DInt; DSpace; DUll; DSpace;
   DScanset (Some 128%nat) [newline; " "%char]].

(** " %d %d %d %*s %*s %[^\n ]" *)
Definition fmt_evms : list directive :=
  [DSpace; DInt; DSpace; DInt; DSpace; DInt; DSpace; DSkipString;
   DSpace; DSkipString; DSpace; DScanset None [newline; " "%char]].

(** "device: %d:%d" *)
Definition fmt_lvm : list directive :=
  literal "device:" ++ [DSpace; DInt; DChar ":"%char; DInt].

(** ** Data model *)

(** [struct blkid_struct_dev], the fields [devname.c] reads or writes. *)
Record blkid_struct_dev : Type := {
  bid_name : string;
  bid_devno : Z;
  bid_pri : Z;
  bid_time : Z
}.

(** [struct blkid_struct_cache]. *)
Record blkid_struct_cache : Type := {
  bic_devs : list blkid_struct_dev;
  bic_flags : Z;
  bic_time : Z
}.

(** A [blkid_dev] pointer into a cache; [None] is [NULL]. *)
Definition blkid_dev : Type := option nat.

(** Collaborators defined in other files of the library. *)
Record externals : Type := {
  (* blkid_new_dev(): a fresh record, or NULL *)
  blkid_new_dev : option blkid_struct_dev;
  (* blkid_verify(cache, dev): may change, replace or free the record *)
  blkid_verify :
    blkid_struct_cache -> blkid_dev -> blkid_struct_cache * blkid_dev;
  blkid_read_cache : blkid_struct_cache -> blkid_struct_cache;
  blkid_flush_cache : blkid_struct_cache -> blkid_struct_cache;
  blkid_devno_to_devname : Z -> option string;
  blkid_devdirs : list string
}.

(** The operating system as the probers see it. *)
Record stat_t : Type := { st_isblk : bool; st_rdev : Z }.

Record dm_device : Type := {
  dm_name : string;
  dm_exists : bool;          (* info.exists *)
  dm_major : Z;
  dm_minor : Z;
  dm_deps : option (list Z)  (* dm_task_get_deps: NULL, or the devices *)
}.

Record world : Type := {
  (* fopen(path, "r"): the content of the file, [None] when it fails *)
  fopen : string -> option string;
  (* opendir(path): the names readdir delivers, [None] when it fails *)
  opendir : string -> option (list string);
  (* stat(path): [None] when it fails *)
  stat : string -> option stat_t;
  (* whether dm_task_create succeeds *)
  dm_task_create : bool;
  (* the DM_DEVICE_LIST answer; empty when names is NULL or names->dev is 0 *)
  dm_names : list dm_device
}.

(** What the code asks of its environment, in order. *)
Inductive event : Type :=
| EvProbeOne (ptname : string) (devno pri : Z) (only_if_new : bool)
| EvIsLeaf (dev : Z)
| EvReadCache
| EvFlushCache
| EvFopen (path : string)
| EvOpendir (path : string)
| EvDmList.

Record state : Type := {
  st_cache : blkid_struct_cache;
  st_trace : list event
}.

Definition tell (e : event) (st : state) : state :=
  {| st_cache := st_cache st; st_trace := st_trace st ++ [e] |}.

Definition with_cache (c : blkid_struct_cache) (st : state) : state :=
  {| st_cache := c; st_trace := st_trace st |}.

(** The calls of [probe_one] in a trace. *)
Definition is_probe (e : event) : bool :=
  match e with EvProbeOne _ _ _ _ => true | _ => false end.

Definition probes_of (tr : list event) : list event := filter is_probe tr.

Definition set_devs (c : blkid_struct_cache) (l : list blkid_struct_dev)
  : blkid_struct_cache :=
  {| bic_devs := l; bic_flags := bic_flags c; bic_time := bic_time c |}.

Definition get_dev (c : blkid_struct_cache) (d : nat)
  : option blkid_struct_dev :=
  nth_error (bic_devs c) d.

(** Replace the element at position [i]; nothing changes out of range. *)
Fixpoint list_set {A : Type} (l : list A) (i : nat) (x : A) : list A :=
  match l, i with
  | [], _ => []
  | _ :: l', O => x :: l'
  | y :: l', S i' => y :: list_set l' i' x
  end.

(** [dev->bid_pri = pri] *)
Definition set_bid_pri (c : blkid_struct_cache) (d : nat) (pri : Z)
  : blkid_struct_cache :=
  match get_dev c d with
  | Some r =>
      set_devs c
        (list_set (bic_devs c) d
           {| bid_name := bid_name r; bid_devno := bid_devno r;
              bid_pri := pri; bid_time := bid_time r |})
  | None => c
  end.

(** [dev && dev->bid_devno == devno] *)
Definition dev_has_devno (c : blkid_struct_cache) (dev : blkid_dev)
  (devno : Z) : bool :=
  match dev with
  | Some d =>
      match get_dev c d with
      | Some r => bid_devno r =? devno
      | None => false
      end
  | None => false
  end.

Section Devname.

Variable H : blkid_header.
Variable X : externals.
Variable W : world.

(** ** blkid_get_dev

    The pointers [cache] and [devname] are valid by construction here, so
    the guard on NULL arguments has no counterpart. *)

(** The [list_for_each] scan for a record named [devname]; [i] is the
    position of the head of [devs] in the cache. *)
Fixpoint find_devname (devs : list blkid_struct_dev) (devname : string)
  (i : nat) : blkid_dev :=
  match devs with
  | [] => None
  | tmp :: rest =>
      if strcmp_is_zero (bid_name tmp) devname
      then Some i
      else find_devname rest devname (S i)
  end.

Definition flag_set (flags bit : Z) : bool := negb (Z.land flags bit =? 0).

Definition blkid_get_dev (cache : blkid_struct_cache) (devname : string)
  (flags : Z) : blkid_dev * blkid_struct_cache :=
  let dev := find_devname (bic_devs cache) devname 0 in
  let verify (r : blkid_dev * blkid_struct_cache) :=
    if flag_set flags (BLKID_DEV_VERIFY H)
    then let '(c, d) := blkid_verify X (snd r) (fst r) in (d, c)
    else r in
  match dev with
  | None =>
      if flag_set flags (BLKID_DEV_CREATE H)
      then
        match blkid_new_dev X with
        | None => (None, cache)
        | Some fresh =>
            let d := {| bid_name := devname;
                        bid_devno := bid_devno fresh;
                        bid_pri := bid_pri fresh;
                        bid_time := INT_MIN H |} in
            verify
              (Some (List.length (bic_devs cache)),
               {| bic_devs := bic_devs cache ++ [d];
                  bic_flags :=
                    Z.lor (bic_flags cache) (BLKID_BIC_FL_CHANGED H);
                  bic_time := bic_time cache |})
        end
      else verify (None, cache)
  | Some _ => verify (dev, cache)
  end.

(** ** device-mapper support (HAVE_DEVMAPPER) *)

Definition dm_lookup (name : string) : option dm_device :=
  find (fun d => String.eqb (dm_name d) name) (dm_names W).

Definition dm_device_has_dep (dev : Z) (name : string) : bool :=
  if negb (dm_task_create W) then false
  else
    match dm_lookup name with
    | None => false
    | Some d =>
        if negb (dm_exists d) then false
        else
          match dm_deps d with
          | None | Some [] => false
          | Some deps => existsb (fun dep_dev => dev =? dep_dev) deps
          end
    end.

Definition dm_device_is_leaf (dev : Z) : bool :=
  if negb (dm_task_create W) then true
  else
    match dm_names W with
    | [] => true
    | names =>
        fold_left
          (fun ret d => if dm_device_has_dep dev (dm_name d) then false else ret)
          names true
    end.

Definition dm_get_devno (name : string) : Z :=
  if negb (dm_task_create W) then 0
  else
    match dm_lookup name with
    | None => 0
    | Some d =>
        if negb (dm_exists d) then 0
        else makedev H (dm_major d) (dm_minor d)
    end.

(** ** probe_one *)

(** How the scan of the cache for [devno] ends: by the [return] under
    [only_if_new], by the [break] at record [tmp], or at the end of the
    list. *)
Inductive scan_outcome : Type :=
| ScanReturn
| ScanBreak (tmp : nat)
| ScanEnd.

Fixpoint scan_devno (devs : list blkid_struct_dev) (i : nat) (devno : Z)
  (only_if_new : bool) (tr : list event) : scan_outcome * list event :=
  match devs with
  | [] => (ScanEnd, tr)
  | tmp :: rest =>
      let compare (tr' : list event) :=
        if bid_devno tmp =? devno
        then if only_if_new then (ScanReturn, tr') else (ScanBreak i, tr')
        else scan_devno rest (S i) devno only_if_new tr' in
      if HAVE_DEVMAPPER H
      then
        let tr' := tr ++ [EvIsLeaf devno] in
        if negb (dm_device_is_leaf devno)
        then scan_devno rest (S i) devno only_if_new tr'
        else compare tr'
      else compare tr
  end.

(** How the walk over [blkid_devdirs] ends: by [goto set_pri] with a cached
    record, by the [break] with a device name, or at the end of the table.
    The path built by [sprintf] is taken to fit its buffer of 256 bytes. *)
Inductive dirs_outcome : Type :=
| DirsSetPri (dev : blkid_dev)
| DirsName (devname : string)
| DirsEnd.

Fixpoint search_devdirs (dirs : list string) (cache : blkid_struct_cache)
  (ptname : string) (devno : Z) : dirs_outcome * blkid_struct_cache :=
  match dirs with
  | [] => (DirsEnd, cache)
  | dir :: dirs' =>
      let device := (dir ++ "/" ++ ptname)%string in
      let '(dev, cache1) := blkid_get_dev cache device (BLKID_DEV_FIND H) in
      if dev_has_devno cache1 dev devno then (DirsSetPri dev, cache1)
      else
        match stat W device with
        | Some st =>
            if st_isblk st && (st_rdev st =? devno)
            then (DirsName device, cache1)
            else search_devdirs dirs' cache1 ptname devno
        | None => search_devdirs dirs' cache1 ptname devno
        end
  end.

(** Where the part of [probe_one] before the label [set_pri] ends: at one
    of its [return]s, or at the label with the record in [dev]. *)
Inductive resolution : Type :=
| Return
| SetPri (dev : blkid_dev).

Definition probe_one_resolve (ptname : string) (devno : Z)
  (only_if_new : bool) (st : state) : resolution * state :=
  (* See if we already have this device number in the cache. *)
  let '(o, tr) :=
    scan_devno (bic_devs (st_cache st)) 0 devno only_if_new (st_trace st) in
  let st1 := {| st_cache := st_cache st; st_trace := tr |} in
  match o with
  | ScanReturn => (Return, st1)
  | _ =>
      let '(cache1, dev) :=
        match o with
        | ScanBreak tmp => blkid_verify X (st_cache st) (Some tmp)
        | _ => (st_cache st, None)
        end in
      if dev_has_devno cache1 dev devno
      then (SetPri dev, with_cache cache1 st1)
      else
        let '(d, cache2) :=
          search_devdirs (blkid_devdirs X) cache1 ptname devno in
        match d with
        | DirsSetPri dev' => (SetPri dev', with_cache cache2 st1)
        | _ =>
            let devname :=
              match d with
              | DirsName n => Some n
              | _ => blkid_devno_to_devname X devno
              end in
            match devname with
            | None => (Return, with_cache cache2 st1)
            | Some n =>
                let '(dev2, cache3) :=
                  blkid_get_dev cache2 n (BLKID_DEV_NORMAL H) in
                (SetPri dev2, with_cache cache3 st1)
            end
        end
  end.

(** The code at the label [set_pri]. *)
Definition set_pri (ptname : string) (pri : Z) (dev : blkid_dev)
  (cache : blkid_struct_cache) : blkid_struct_cache :=
  let pri :=
    if (pri =? 0) && strncmp_is_zero ptname "md" 2
    then BLKID_PRI_MD H else pri in
  match dev with
  | Some d => set_bid_pri cache d pri
  | None => cache
  end.

(** [probe_one], with the way it ended next to the state it leaves. *)
Definition probe_one_run (ptname : string) (devno pri : Z)
  (only_if_new : bool) (st : state) : resolution * state :=
  let st0 := tell (EvProbeOne ptname devno pri only_if_new) st in
  let '(r, st1) := probe_one_resolve ptname devno only_if_new st0 in
  match r with
  | Return => (r, st1)
  | SetPri dev => (r, with_cache (set_pri ptname pri dev (st_cache st1)) st1)
  end.

Definition probe_one (ptname : string) (devno pri : Z) (only_if_new : bool)
  (st : state) : state :=
  snd (probe_one_run ptname devno pri only_if_new st).

(** ** dm_probe_all *)

Definition dm_probe_all (only_if_new : bool) (st : state) : state :=
  let st := tell EvDmList st in
  if negb (dm_task_create W) then st
  else
    match dm_names W with
    | [] => st
    | names =>
        fold_left
          (fun st d =>
             let device := ("mapper/" ++ dm_name d)%string in
             let dev := dm_get_devno (dm_name d) in
             if dev =? 0 then st
             else
               let st := tell (EvIsLeaf dev) st in
               if negb (dm_device_is_leaf dev) then st
               else probe_one device dev (BLKID_PRI_DM H) only_if_new st)
          names st
    end.

(** ** lvm_get_devno, lvm_probe_all *)

Definition PROC_PARTITIONS : string := "/proc/partitions".
Definition VG_DIR : string := "/proc/lvm/VGs".
Definition PROC_EVMS_VOLUMES : string := "/proc/evms/volumes".

(** The [while (fgets ...)] loop of [lvm_get_devno] over the buffers read:
    the first line on which both numbers convert decides. *)
Fixpoint lvm_scan_lines (lines : list string) : Z :=
  match lines with
  | [] => 0
  | buf :: rest =>
      let '(n, vs) := sscanf buf fmt_lvm in
      if n =? 2
      then
        match vs with
        | [VInt ma; VInt mi] => makedev H ma mi
        | _ => 0 (* not reached: two values were assigned *)
        end
      else lvm_scan_lines rest
  end.

Definition lvm_get_devno (lvm_device : string) : Z :=
  match fopen W lvm_device with
  | None => 0
  | Some content => lvm_scan_lines (fgets_all 1024 content)
  end.

Definition is_dot_or_dotdot (name : string) : bool :=
  strcmp_is_zero name "." || strcmp_is_zero name "..".

Definition lvm_probe_all (only_if_new : bool) (st : state) : state :=
  let st := tell (EvOpendir VG_DIR) st in
  match opendir W VG_DIR with
  | None => st
  | Some vg_list =>
      fold_left
        (fun st vg_name =>
           if is_dot_or_dotdot vg_name then st
           else
             let vdirname := (VG_DIR ++ "/" ++ vg_name ++ "/LVs")%string in
             let st := tell (EvOpendir vdirname) st in
             match opendir W vdirname with
             | None => st
             | Some lv_list =>
                 fold_left
                   (fun st lv_name =>
                      if is_dot_or_dotdot lv_name then st
                      else
                        let lvm_device :=
                          (VG_DIR ++ "/" ++ vg_name ++ "/LVs/" ++ lv_name)
                            %string in
                        let st := tell (EvFopen lvm_device) st in
                        let dev := lvm_get_devno lvm_device in
                        let lvm_device :=
                          (vg_name ++ "/" ++ lv_name)%string in
                        probe_one lvm_device dev (BLKID_PRI_LVM H)
                          only_if_new st)
                   lv_list st
             end)
        vg_list st
  end.

(** ** evms_probe_all *)

(** One turn of the [while (fgets ...)] loop: [num] and the state before
    and after the line. *)
Definition evms_line (only_if_new : bool) (acc : Z * state) (line : string)
  : Z * state :=
  let '(num, st) := acc in
  let '(n, vs) := sscanf line fmt_evms in
  if negb (n =? 4) then acc
  else
    match vs with
    | [VInt ma; VInt mi; VInt _; VStr device] =>
        (num + 1,
         probe_one device (makedev H ma mi) (BLKID_PRI_EVMS H) only_if_new st)
    | _ => acc (* not reached: four values were assigned *)
    end.

Definition evms_probe_all (only_if_new : bool) (st : state) : Z * state :=
  let st := tell (EvFopen PROC_EVMS_VOLUMES) st in
  match fopen W PROC_EVMS_VOLUMES with
  | None => (0, st)
  | Some content =>
      fold_left (evms_line only_if_new) (fgets_all 100 content) (0, st)
  end.

(** ** probe_all *)

(** The two-element arrays [ptnames], [devs] and [lens], indexed by [which]
    and [last]: [false] is index 0, [true] index 1, and [which ^= 1] is
    [negb]. *)
Definition aget {A : Type} (a : A * A) (i : bool) : A :=
  if i then snd a else fst a.

Definition aset {A : Type} (a : A * A) (i : bool) (x : A) : A * A :=
  if i then (fst a, x) else (x, snd a).

(** The locals that live across the lines of /proc/partitions. The name
    buffers and [devs] start uninitialised in C; they are only read for an
    index whose [lens] entry is not zero. [ptname] is [ptnames[which]]
    from the first line on. *)
Record pt_locals : Type := {
  which : bool;
  ptnames : string * string;
  devs : Z * Z;
  lens : nat * nat
}.

Definition pt_init : pt_locals :=
  {| which := false; ptnames := ("", ""); devs := (0, 0);
     lens := (0%nat, 0%nat) |}.

Definition ends_in_digit (ptname : string) : bool :=
  match last_char ptname with
  | Some c => isdigit c
  | None => false
  end.

(** One turn of the [while (fgets(line, sizeof(line), proc))] loop. When
    [sscanf] does not convert all four fields nothing has been written to
    the name buffer, and the turn ends at [continue] with [which] flipped.

    The buffer [ptnames[which]] is a [char[128]]: the name stored is the
    one read as long as it fits ([name_fits]). A longer name, which
    [%128[^\n ]] does not refuse, writes past the buffer; the turn below
    then says what a program with room for the name would do, and nothing
    about [devname.c]. *)
Definition pt_line (only_if_new : bool) (acc : pt_locals * state)
  (line : string) : pt_locals * state :=
  let '(l, st) := acc in
  let last := which l in
  let which := negb (which l) in
  let '(n, vs) := sscanf line fmt_partitions in
  let skip :=
    ({| which := which; ptnames := ptnames l; devs := devs l;
        lens := lens l |}, st) in
  if negb (n =? 4) then skip
  else
    match vs with
    | [VInt ma; VInt mi; VInt sz; VStr ptname] =>
        let ptnames := aset (ptnames l) which ptname in
        let devs := aset (devs l) which (makedev H ma mi) in
        let lens := aset (lens l) which (strlen ptname) in
        if ends_in_digit ptname
        then
          let st :=
            if 1 <? sz
            then probe_one ptname (aget devs which) 0 only_if_new st
            else st in
          ({| which := which; ptnames := ptnames; devs := devs;
              lens := aset (aset lens which 0%nat) last 0%nat |}, st)
        else
          if negb (Nat.eqb (aget lens last) 0)
             && negb (strncmp_is_zero (aget ptnames last) ptname
                        (aget lens last))
          then
            ({| which := which; ptnames := ptnames; devs := devs;
                lens := aset lens last 0%nat |},
             probe_one (aget ptnames last) (aget devs last) 0 only_if_new st)
          else
            ({| which := which; ptnames := ptnames; devs := devs;
                lens := lens |}, st)
    | _ => skip (* not reached: four values were assigned *)
    end.

(** The loop over the lines and the statement after it, which handles the
    last device if it was not partitioned. *)
Definition probe_partitions (only_if_new : bool) (lines : list string)
  (st : state) : state :=
  let '(l, st) := fold_left (pt_line only_if_new) lines (pt_init, st) in
  if negb (Nat.eqb (aget (lens l) (which l)) 0)
  then probe_one (aget (ptnames l) (which l)) (aget (devs l) (which l)) 0
         only_if_new st
  else st.

(** [cache->bic_flags & BLKID_BIC_FL_PROBED &&
     time(0) - cache->bic_time < BLKID_PROBE_INTERVAL] *)
Definition recently_probed (now : Z) (cache : blkid_struct_cache) : bool :=
  flag_set (bic_flags cache) (BLKID_BIC_FL_PROBED H)
  && (now - bic_time cache <? BLKID_PROBE_INTERVAL H).

(** [probe_all]; [now] is what [time(0)] returns. The cache is a valid
    object here, so the guard on a NULL cache has no counterpart. *)
Definition probe_all (now : Z) (only_if_new : bool) (st : state)
  : Z * state :=
  if recently_probed now (st_cache st) then (0, st)
  else
    let st := tell EvReadCache st in
    let st := with_cache (blkid_read_cache X (st_cache st)) st in
    let st := if HAVE_DEVMAPPER H then dm_probe_all only_if_new st else st in
    let st := snd (evms_probe_all only_if_new st) in
    let st := lvm_probe_all only_if_new st in
    let st := tell (EvFopen PROC_PARTITIONS) st in
    match fopen W PROC_PARTITIONS with
    | None => (- BLKID_ERR_PROC H, st)
    | Some content =>
        let st := probe_partitions only_if_new (fgets_all 1024 content) st in
        let st := tell EvFlushCache st in
        (0, with_cache (blkid_flush_cache X (st_cache st)) st)
    end.

(** [blkid_probe_all]; [now] and [now'] are the results of the two calls
    of [time(0)], the one in [probe_all] and the one that stamps the
    cache. *)
Definition blkid_probe_all (now now' : Z) (st : state) : Z * state :=
  let '(ret, st) := probe_all now false st in
  let cache := st_cache st in
  (ret,
   with_cache
     {| bic_devs := bic_devs cache;
        bic_flags := Z.lor (bic_flags cache) (BLKID_BIC_FL_PROBED H);
        bic_time := now' |} st).

Definition blkid_probe_all_new (now : Z) (st : state) : Z * state :=
  probe_all now true st.

(** ** Notions used to state the properties *)

(** The number of candidates a scan by device number looks at when it
    skips none: those up to the first one of the number [devno], that one
    included; all of them when there is none. *)
Fixpoint examined (devs : list blkid_struct_dev) (devno : Z) : nat :=
  match devs with
  | [] => 0%nat
  | tmp :: rest =>
      if bid_devno tmp =? devno then 1%nat else S (examined rest devno)
  end.

(** The scan of the cache as the specification words it: the leaf test is
    applied to the candidate record being examined, and a candidate that
    is not a leaf is skipped before its device number is compared. *)
Fixpoint spec_scan_devno (devs : list blkid_struct_dev) (i : nat)
  (devno : Z) (only_if_new : bool) (tr : list event)
  : scan_outcome * list event :=
  match devs with
  | [] => (ScanEnd, tr)
  | tmp :: rest =>
      let compare (tr' : list event) :=
        if bid_devno tmp =? devno
        then if only_if_new then (ScanReturn, tr') else (ScanBreak i, tr')
        else spec_scan_devno rest (S i) devno only_if_new tr' in
      if HAVE_DEVMAPPER H
      then
        let tr' := tr ++ [EvIsLeaf (bid_devno tmp)] in
        if negb (dm_device_is_leaf (bid_devno tmp))
        then spec_scan_devno rest (S i) devno only_if_new tr'
        else compare tr'
      else compare tr
  end.

(** A pending whole-disk candidate never has a name that ends in a digit:
    [lens] is only left non-zero by a line of the disk-shaped branch. *)
Definition pending_are_disks (l : pt_locals) : Prop :=
  forall i, aget (lens l) i <> 0%nat ->
            ends_in_digit (aget (ptnames l) i) = false.

(** A call of [probe_one] for a name that ends in a digit is backed by a
    line of the report of that name, with a size above 1 and the device
    number passed. *)
Definition backed_by (lines : list string) (e : event) : Prop :=
  match e with
  | EvProbeOne name devno _ _ =>
      ends_in_digit name = true ->
      exists line ma mi sz,
        In line lines
        /\ sscanf line fmt_partitions
           = (4, [VInt ma; VInt mi; VInt sz; VStr name])
        /\ 1 < sz /\ devno = makedev H ma mi
  | _ => True
  end.

End Devname.


(** A line of text seen as white space followed by tokens, each with the
    white space that follows it. *)
Fixpoint all_chars (p : ascii -> bool) (s : string) : bool :=
  match s with
  | "" => true
  | String c s' => p c && all_chars p s'
  end.

Definition is_empty (s : string) : bool :=
  match s with "" => true | _ => false end.

Definition is_token (t : string) : bool :=
  negb (is_empty t) && all_chars (fun c => negb (isspace c)) t.

Definition all_digits (d : string) : bool :=
  negb (is_empty d) && all_chars isdigit d.

(** A token that is a decimal integer, with an optional sign. *)
Definition is_decimal (t : string) : bool :=
  match t with
  | String c d =>
      if Ascii.eqb c "-" then all_digits d
      else if Ascii.eqb c "+" then all_digits d
      else all_digits t
  | "" => false
  end.

Fixpoint render (toks : list (string * string)) : string :=
  match toks with
  | [] => ""
  | (t, w) :: r => (t ++ (w ++ render r))%string
  end.

(** Tokens are not empty and hold no white space; what separates two
    tokens is white space, and not empty. *)
Fixpoint wf_tokens (toks : list (string * string)) : bool :=
  match toks with
  | [] => true
  | (t, w) :: r =>
      is_token t && all_chars isspace w
      && match r with [] => true | _ => negb (is_empty w) end
      && wf_tokens r
  end.

(** The value [%d] gives a decimal token. *)
Definition int_of_token (t : string) : Z :=
  match scan_number t with
  | Some (neg, m, _) => to_int neg m
  | None => 0
  end.

(** The [i]-th token. *)
Definition token (toks : list (string * string)) (i : nat) : string :=
  nth i (map fst toks) "".

(** End of the string or white space: where a token stops. *)
Definition boundary (s : string) : bool :=
  match s with
  | "" => true
  | String c _ => isspace c
  end.

(** The scanset of the last directive of the EVMS format. *)
Definition path_set : list ascii := [newline; " "%char].

(** The white space after the [i]-th token. *)
Definition separator (toks : list (string * string)) (i : nat) : string :=
  nth i (map snd toks) "".

Arguments blkid_get_dev H X cache devname flags : assert.

(** ** Worked instances

    The values of e2fsprogs' blkidP.h and blkid.h and the classic
    [makedev], for running the embedding on concrete inputs. *)
Definition sample_header (dm : bool) : blkid_header :=
  {| BLKID_DEV_FIND := 0;
     BLKID_DEV_CREATE := 1;
     BLKID_DEV_VERIFY := 2;
     BLKID_DEV_NORMAL := 3;
     BLKID_BIC_FL_PROBED := 2;
     BLKID_BIC_FL_CHANGED := 4;
     BLKID_PROBE_INTERVAL := 200;
     BLKID_ERR_PROC := 9;
     BLKID_ERR_PARAM := 22;
     BLKID_PRI_DM := 40;
     BLKID_PRI_EVMS := 30;
     BLKID_PRI_LVM := 20;
     BLKID_PRI_MD := 10;
     INT_MIN := - 2 ^ 31;
     makedev := fun ma mi => ma * 256 + mi;
     HAVE_DEVMAPPER := dm |}.

Definition zero_dev : blkid_struct_dev :=
  {| bid_name := ""; bid_devno := 0; bid_pri := 0; bid_time := 0 |}.

(** Collaborators that do nothing: verification confirms the record,
    loading and flushing leave the cache alone, the exhaustive search
    finds no name. *)
Definition sample_externals : externals :=
  {| blkid_new_dev := Some zero_dev;
     blkid_verify := fun c d => (c, d);
     blkid_read_cache := fun c => c;
     blkid_flush_cache := fun c => c;
     blkid_devno_to_devname := fun _ => None;
     blkid_devdirs := ["/dev"] |}.



Definition file_table (files : list (string * string)) (path : string)
  : option string :=
  option_map snd (find (fun f => String.eqb (fst f) path) files).

Definition dir_table (dirs : list (string * list string)) (path : string)
  : option (list string) :=
  option_map snd (find (fun f => String.eqb (fst f) path) dirs).

(** A system with the given files and directories, no device nodes and no
    device-mapper devices. *)
Definition sample_world (files : list (string * string))
  (dirs : list (string * list string)) : world :=
  {| fopen := file_table files;
     opendir := dir_table dirs;
     stat := fun _ => None;
     dm_task_create := true;
     dm_names := [] |}.

Definition empty_cache : blkid_struct_cache :=
  {| bic_devs := []; bic_flags := 0; bic_time := 0 |}.

Definition start (c : blkid_struct_cache) : state :=
  {| st_cache := c; st_trace := [] |}.

Definition nl : string := String newline "".

(** A system where the mapper device vg0-lv0 (253:0) is built on the disk
    8:0, so that 8:0 is not a leaf. *)
Definition stacked_world : world :=
  {| fopen := fun _ => None;
     opendir := fun _ => None;
     stat := fun _ => None;
     dm_task_create := true;
     dm_names :=
       [{| dm_name := "vg0-lv0"; dm_exists := true; dm_major := 253;
           dm_minor := 0; dm_deps := Some [2048] |}] |}.

Definition sda_dev (pri : Z) : blkid_struct_dev :=
  {| bid_name := "/dev/sda"; bid_devno := 2048; bid_pri := pri;
     bid_time := 0 |}.

(** The record of the mapper device vg0-lv0 (253:0). *)
Definition lv0_dev : blkid_struct_dev :=
  {| bid_name := "/dev/mapper/vg0-lv0"; bid_devno := 64768; bid_pri := 40;
     bid_time := 0 |}.

Definition md0_dev : blkid_struct_dev :=
  {| bid_name := "/dev/md0"; bid_devno := 2304; bid_pri := 0;
     bid_time := 0 |}.

Definition cache_of (devs : list blkid_struct_dev) : blkid_struct_cache :=
  {| bic_devs := devs; bic_flags := 0; bic_time := 0 |}.


(** A volume group vg0 with one logical volume lv0, whose metadata file
    has no "device:" line; and a cache with one record that
    [blkid_get_dev] created and nobody verified, so that its device
    number is still zero. *)
Definition lvm_world : world :=
  sample_world
    [("/proc/lvm/VGs/vg0/LVs/lv0", "name: /dev/vg0/lv0" ++ nl)%string]
    [("/proc/lvm/VGs", ["."; ".."; "vg0"]);
     ("/proc/lvm/VGs/vg0/LVs", ["."; ".."; "lv0"])].

Definition unverified_cache : blkid_struct_cache :=
  snd (blkid_get_dev (sample_header false) sample_externals empty_cache
         "/dev/sdz" 1).

(** ** The events of a pass, as the system alone determines them

    Leaf queries apart (the scan of the cache in [probe_one] asks one for
    each record it passes), what a prober adds to the trace does not depend
    on the cache: the lists below give it from the system, and the lemmas
    on the trace relate them to the code. *)

Definition is_leaf_query (e : event) : bool :=
  match e with EvIsLeaf _ => true | _ => false end.

Definition without_leaf_queries (tr : list event) : list event :=
  filter (fun e => negb (is_leaf_query e)) tr.

Section Events.

Variable H : blkid_header.
Variable W : world.
Variable only_if_new : bool.

(** What [dm_probe_all] does for one entry of the device list. *)
Definition dm_entry_events (d : dm_device) : list event :=
  let dev := dm_get_devno H W (dm_name d) in
  if dev =? 0 then []
  else if negb (dm_device_is_leaf W dev) then []
  else [EvProbeOne ("mapper/" ++ dm_name d) dev (BLKID_PRI_DM H)
          only_if_new].

Definition dm_events : list event :=
  EvDmList ::
  (if negb (dm_task_create W) then []
   else flat_map dm_entry_events (dm_names W)).

(** What [evms_probe_all] does for one line. *)
Definition evms_line_events (line : string) : list event :=
  let '(n, vs) := sscanf line fmt_evms in
  if negb (n =? 4) then []
  else
    match vs with
    | [VInt ma; VInt mi; VInt _; VStr device] =>
        [EvProbeOne device (makedev H ma mi) (BLKID_PRI_EVMS H) only_if_new]
    | _ => []
    end.

Definition evms_events : list event :=
  EvFopen PROC_EVMS_VOLUMES ::
  match fopen W PROC_EVMS_VOLUMES with
  | None => []
  | Some content => flat_map evms_line_events (fgets_all 100 content)
  end.

(** What [lvm_probe_all] does for one entry of a volume group's LVs
    directory, and for one entry of the root directory. *)
Definition lvm_lv_events (vg_name lv_name : string) : list event :=
  if is_dot_or_dotdot lv_name then []
  else
    let lvm_device :=
      (VG_DIR ++ "/" ++ vg_name ++ "/LVs/" ++ lv_name)%string in
    [EvFopen lvm_device;
     EvProbeOne (vg_name ++ "/" ++ lv_name) (lvm_get_devno H W lvm_device)
       (BLKID_PRI_LVM H) only_if_new].

Definition lvm_vg_events (vg_name : string) : list event :=
  if is_dot_or_dotdot vg_name then []
  else
    let vdirname := (VG_DIR ++ "/" ++ vg_name ++ "/LVs")%string in
    EvOpendir vdirname ::
    match opendir W vdirname with
    | None => []
    | Some lv_list => flat_map (lvm_lv_events vg_name) lv_list
    end.

Definition lvm_events : list event :=
  EvOpendir VG_DIR ::
  match opendir W VG_DIR with
  | None => []
  | Some vg_list => flat_map lvm_vg_events vg_list
  end.

(** One turn of the loop over /proc/partitions without the cache: the
    locals it leaves and the call it makes, if any. *)
Definition pt_step (l : pt_locals) (line : string)
  : pt_locals * list event :=
  let last := which l in
  let which := negb (which l) in
  let '(n, vs) := sscanf line fmt_partitions in
  let skip :=
    ({| which := which; ptnames := ptnames l; devs := devs l;
        lens := lens l |}, []) in
  if negb (n =? 4) then skip
  else
    match vs with
    | [VInt ma; VInt mi; VInt sz; VStr ptname] =>
        let ptnames := aset (ptnames l) which ptname in
        let devs := aset (devs l) which (makedev H ma mi) in
        let lens := aset (lens l) which (strlen ptname) in
        if ends_in_digit ptname
        then
          ({| which := which; ptnames := ptnames; devs := devs;
              lens := aset (aset lens which 0%nat) last 0%nat |},
           if 1 <? sz
           then [EvProbeOne ptname (aget devs which) 0 only_if_new]
           else [])
        else
          if negb (Nat.eqb (aget lens last) 0)
             && negb (strncmp_is_zero (aget ptnames last) ptname
                        (aget lens last))
          then
            ({| which := which; ptnames := ptnames; devs := devs;
                lens := aset lens last 0%nat |},
             [EvProbeOne (aget ptnames last) (aget devs last) 0
                only_if_new])
          else
            ({| which := which; ptnames := ptnames; devs := devs;
                lens := lens |}, [])
    | _ => skip
    end.

(** The call after the loop, for a last device that was not partitioned. *)
Definition pt_last (l : pt_locals) : list event :=
  if negb (Nat.eqb (aget (lens l) (which l)) 0)
  then [EvProbeOne (aget (ptnames l) (which l)) (aget (devs l) (which l)) 0
          only_if_new]
  else [].

Fixpoint pt_events_from (l : pt_locals) (lines : list string)
  : list event :=
  match lines with
  | [] => pt_last l
  | line :: rest =>
      snd (pt_step l line) ++ pt_events_from (fst (pt_step l line)) rest
  end.

Definition partitions_events : list event :=
  EvFopen PROC_PARTITIONS ::
  match fopen W PROC_PARTITIONS with
  | None => []
  | Some content =>
      pt_events_from pt_init (fgets_all 1024 content) ++ [EvFlushCache]
  end.

(** A pass of [probe_all] that gets beyond the guard. *)
Definition pass_events : list event :=
  EvReadCache ::
  (if HAVE_DEVMAPPER H then dm_events else [])
  ++ evms_events ++ lvm_events ++ partitions_events.

End Events.

(** A line of the partition report as [sscanf] reads it: major, minor,
    size and name; and the call of [probe_one] for it. *)
Definition pt_entry : Type := (Z * Z * Z * string)%type.

Definition pt_name (p : pt_entry) : string := snd p.

Definition pt_size (p : pt_entry) : Z := snd (fst p).

Definition reads_as (line : string) (p : pt_entry) : Prop :=
  let '(ma, mi, sz, name) := p in
  sscanf line fmt_partitions = (4, [VInt ma; VInt mi; VInt sz; VStr name]).

Definition pt_call (H : blkid_header) (only_if_new : bool) (p : pt_entry)
  : event :=
  let '(ma, mi, _, name) := p in
  EvProbeOne name (makedev H ma mi) 0 only_if_new.

(** [e] is the call for some line of [lines], one of a size above 1 when
    its name ends in a digit. *)
Definition call_of_line (H : blkid_header) (only_if_new : bool)
  (lines : list string) (e : event) : Prop :=
  exists line p,
    In line lines /\ reads_as line p /\ e = pt_call H only_if_new p
    /\ (ends_in_digit (pt_name p) = true -> 1 < pt_size p).

(** The slot [i] of the locals, when pending, holds a disk-shaped line of
    [seen]. *)
Definition slot_of_line (H : blkid_header) (seen : list string)
  (l : pt_locals) (i : bool) : Prop :=
  aget (lens l) i <> 0%nat ->
  exists line p,
    In line seen /\ reads_as line p
    /\ ends_in_digit (pt_name p) = false
    /\ aget (ptnames l) i = pt_name p
    /\ aget (devs l) i = makedev H (fst (fst (fst p))) (snd (fst (fst p))).

(** The calls of [probe_one] in [q], when all have the priority [pri] and
    the flag [only_if_new]. *)
Definition calls_with (only_if_new : bool) (pri : Z) (q : list event)
  : Prop :=
  Forall (fun e => exists ptname devno,
                     e = EvProbeOne ptname devno pri only_if_new) q.

(** The value [%llu] gives a decimal token. *)
Definition ull_of_token (t : string) : Z :=
  match scan_number t with
  | Some (neg, m, _) => to_ull neg m
  | None => 0
  end.

(** End of the string, a blank or a newline: where [%[^\n ]] stops. *)
Definition name_ends (s : string) : bool :=
  match s with
  | "" => true
  | String c _ => negb (in_scanset path_set c)
  end.

(** A system whose only device node is the disk /dev/sdb (8:16). *)
Definition node_world : world :=
  {| fopen := fun _ => None;
     opendir := fun _ => None;
     stat := fun path =>
       if String.eqb path "/dev/sdb"
       then Some {| st_isblk := true; st_rdev := 2064 |}
       else None;
     dm_task_create := false;
     dm_names := [] |}.

(** A system with three entries in the device list: vg0-lv0 (253:0) on
    the disk 8:0, its snapshot vg0-snap (253:1) on vg0-lv0, and an entry
    whose device is missing. *)
Definition mapper_world : world :=
  {| fopen := fun _ => None;
     opendir := fun _ => None;
     stat := fun _ => None;
     dm_task_create := true;
     dm_names :=
       [{| dm_name := "vg0-lv0"; dm_exists := true; dm_major := 253;
           dm_minor := 0; dm_deps := Some [2048] |};
        {| dm_name := "vg0-snap"; dm_exists := true; dm_major := 253;
           dm_minor := 1; dm_deps := Some [64768] |};
        {| dm_name := "vg0-old"; dm_exists := false; dm_major := 0;
           dm_minor := 0; dm_deps := None |}] |}.

(** A volume group vg0 with the volumes lv0 (58:0) and lv1, whose file has
    no "device:" line, and an entry vg1 without an LVs directory. *)
Definition volumes_world : world :=
  sample_world
    [("/proc/lvm/VGs/vg0/LVs/lv0",
      "name: /dev/vg0/lv0" ++ nl ++ "device: 58:0" ++ nl)%string;
     ("/proc/lvm/VGs/vg0/LVs/lv1", "name: /dev/vg0/lv1" ++ nl)%string]
    [("/proc/lvm/VGs", ["."; ".."; "vg0"; "vg1"]);
     ("/proc/lvm/VGs/vg0/LVs", ["."; ".."; "lv0"; "lv1"])].

(** * Properties *)

Ltac andb_hyps :=
  repeat match goal with
         | A : _ && _ = true |- _ =>
             apply andb_true_iff in A; destruct A
         end.

(** ** The trace only grows, and [probe_one] adds one call to it *)

Lemma probes_of_app (a b : list event) :
  probes_of (a ++ b) = probes_of a ++ probes_of b.
Proof. apply filter_app. Qed.

Section TraceFacts.

Variable H : blkid_header.
Variable X : externals.
Variable W : world.

(** The scan of the cache adds leaf queries about [devno] and nothing
    else. *)
Lemma scan_devno_trace (devs : list blkid_struct_dev) :
  forall i devno only_if_new tr,
  exists q,
    snd (scan_devno H W devs i devno only_if_new tr) = tr ++ q
    /\ Forall (fun e => e = EvIsLeaf devno) q.
Proof.
  induction devs as [|tmp rest IH]; intros i devno oin tr; simpl.
  - exists []. now rewrite app_nil_r.
  - destruct (HAVE_DEVMAPPER H).
    + destruct (negb (dm_device_is_leaf W devno)).
      * destruct (IH (S i) devno oin (tr ++ [EvIsLeaf devno])) as (q & E & F).
        exists (EvIsLeaf devno :: q). rewrite E, <- app_assoc. auto.
      * destruct (bid_devno tmp =? devno).
        -- exists [EvIsLeaf devno]. destruct oin; simpl; auto.
        -- destruct (IH (S i) devno oin (tr ++ [EvIsLeaf devno]))
             as (q & E & F).
           exists (EvIsLeaf devno :: q). rewrite E, <- app_assoc. auto.
    + destruct (bid_devno tmp =? devno).
      * exists []. rewrite app_nil_r. destruct oin; auto.
      * apply IH.
Qed.

Lemma leaf_queries_no_probe (devno : Z) (q : list event) :
  Forall (fun e => e = EvIsLeaf devno) q -> probes_of q = [].
Proof.
  induction 1 as [|e q E _ IH]; [reflexivity|].
  subst e. exact IH.
Qed.

Lemma probe_one_resolve_trace ptname devno only_if_new st :
  exists q,
    st_trace (snd (probe_one_resolve H X W ptname devno only_if_new st))
    = st_trace st ++ q
    /\ Forall (fun e => e = EvIsLeaf devno) q.
Proof.
  unfold probe_one_resolve.
  destruct (scan_devno_trace (bic_devs (st_cache st)) 0 devno only_if_new
              (st_trace st)) as (q & E & F).
  destruct (scan_devno _ _ _ _ _ _ _) as [o tr]. simpl in E. subst tr.
  exists q. split; [|exact F].
  destruct o; simpl; try reflexivity;
    repeat match goal with
           | |- context [let '(_, _) := ?e in _] => destruct e
           | |- context [if ?b then _ else _] => destruct b
           | |- context [match ?e with _ => _ end] => destruct e
           end; reflexivity.
Qed.

Lemma probe_one_trace ptname devno pri only_if_new st :
  exists q,
    st_trace (probe_one H X W ptname devno pri only_if_new st)
    = st_trace st ++ EvProbeOne ptname devno pri only_if_new :: q
    /\ Forall (fun e => e = EvIsLeaf devno) q.
Proof.
  unfold probe_one, probe_one_run.
  destruct (probe_one_resolve_trace ptname devno only_if_new
              (tell (EvProbeOne ptname devno pri only_if_new) st))
    as (q & E & F).
  destruct (probe_one_resolve _ _ _ _ _ _ _) as [r st1]. simpl in E.
  exists q. split; [|exact F].
  destruct r; simpl; rewrite E, <- app_assoc; reflexivity.
Qed.

Lemma probe_one_probes ptname devno pri only_if_new st :
  probes_of (st_trace (probe_one H X W ptname devno pri only_if_new st))
  = probes_of (st_trace st) ++ [EvProbeOne ptname devno pri only_if_new].
Proof.
  destruct (probe_one_trace ptname devno pri only_if_new st) as (q & E & F).
  rewrite E, probes_of_app. simpl.
  now rewrite (leaf_queries_no_probe devno q F).
Qed.

End TraceFacts.

(** ** The partition-table prober *)

Section Partitions.

Variable H : blkid_header.
Variable X : externals.
Variable W : world.

Lemma backed_by_weaken (lines lines' : list string) (e : event) :
  (forall x, In x lines -> In x lines') ->
  backed_by H lines e -> backed_by H lines' e.
Proof.
  intros S B. destruct e; simpl in *; auto.
  intros D. destruct (B D) as (line & ma & mi & sz & I & R).
  exists line, ma, mi, sz. auto.
Qed.

Lemma leaf_query_backed (lines : list string) (devno : Z) (q : list event) :
  Forall (fun e => e = EvIsLeaf devno) q ->
  forall e, In e q -> backed_by H lines e.
Proof.
  intros F e I. rewrite Forall_forall in F. rewrite (F e I). exact Logic.I.
Qed.

(** The events after a call of [probe_one]: those before, the call, and
    leaf queries. *)
Lemma probe_one_events ptname devno pri only_if_new st e :
  In e (st_trace (probe_one H X W ptname devno pri only_if_new st)) ->
  In e (st_trace st) \/ e = EvProbeOne ptname devno pri only_if_new
  \/ e = EvIsLeaf devno.
Proof.
  destruct (probe_one_trace H X W ptname devno pri only_if_new st)
    as (q & E & F).
  rewrite E, in_app_iff. simpl. rewrite Forall_forall in F.
  intros [I | [I | I]]; auto.
Qed.

Lemma aget_aset_same {A : Type} (a : A * A) (i : bool) (x : A) :
  aget (aset a i x) i = x.
Proof. now destruct i. Qed.

Lemma aget_aset_other {A : Type} (a : A * A) (i : bool) (x : A) :
  aget (aset a (negb i) x) i = aget a i.
Proof. now destruct i. Qed.

Lemma pt_line_step only_if_new l st line :
  pending_are_disks l ->
  pending_are_disks (fst (pt_line H X W only_if_new (l, st) line))
  /\ forall e,
       In e (st_trace (snd (pt_line H X W only_if_new (l, st) line))) ->
       In e (st_trace st) \/ backed_by H [line] e.
Proof.
  intros P. unfold pt_line.
  destruct (sscanf line fmt_partitions) as [n vs] eqn:R.
  destruct (n =? 4) eqn:N; simpl; [|split; auto].
  apply Z.eqb_eq in N. subst n.
  destruct vs as [|[ma|] [|[mi|] [|[sz|] [|[|ptname] [|]]]]];
    try (split; auto; fail).
  destruct (ends_in_digit ptname) eqn:D; simpl.
  - split.
    + intros i. destruct (which l), i; simpl; congruence.
    + intros e. destruct (1 <? sz) eqn:S1; auto.
      intros I. apply probe_one_events in I.
      destruct I as [I | [I | I]]; auto; right; subst e; simpl; auto.
      intros _. exists line, ma, mi, sz.
      rewrite aget_aset_same. apply Z.ltb_lt in S1. auto.
  - rewrite !aget_aset_other.
    destruct (negb (Nat.eqb (aget (lens l) (which l)) 0)) eqn:L; simpl.
    + destruct (negb (strncmp_is_zero _ _ _)); simpl.
      * split.
        -- intros i. generalize (P i).
           destruct (which l), i; simpl; intros Pi Hl; auto; congruence.
        -- intros e I. apply probe_one_events in I.
           destruct I as [I | [I | I]]; auto; right; subst e; simpl; auto.
           intros D'. rewrite P in D'; [discriminate|].
           intros Z0. rewrite Z0 in L. discriminate.
      * split; auto.
        intros i. generalize (P i).
        destruct (which l), i; simpl; intros Pi Hl; auto.
    + split; auto.
      intros i. generalize (P i).
      destruct (which l), i; simpl; intros Pi Hl; auto.
Qed.

Lemma pt_loop_steps only_if_new lines :
  forall l st,
  pending_are_disks l ->
  pending_are_disks
    (fst (fold_left (pt_line H X W only_if_new) lines (l, st)))
  /\ forall e,
       In e (st_trace
               (snd (fold_left (pt_line H X W only_if_new) lines (l, st)))) ->
       In e (st_trace st) \/ backed_by H lines e.
Proof.
  induction lines as [|line lines IH]; intros l st P; cbn [fold_left].
  - simpl. auto.
  - destruct (pt_line_step only_if_new l st line P) as [P1 B1].
    destruct (pt_line H X W only_if_new (l, st) line) as [l1 st1].
    simpl in P1, B1.
    destruct (IH l1 st1 P1) as [P2 B2]. split; [exact P2|].
    intros e I. destruct (B2 e I) as [I1 | B].
    + destruct (B1 e I1) as [I0 | B]; auto. right.
      apply (backed_by_weaken [line]); auto.
      intros x [<- | []]. now left.
    + right. apply (backed_by_weaken lines); auto.
      intros x Ix. now right.
Qed.

Lemma pt_init_pending : pending_are_disks pt_init.
Proof. intros [|]; simpl; congruence. Qed.

Lemma probe_partitions_backed only_if_new lines st e :
  In e (st_trace (probe_partitions H X W only_if_new lines st)) ->
  In e (st_trace st) \/ backed_by H lines e.
Proof.
  unfold probe_partitions.
  destruct (pt_loop_steps only_if_new lines pt_init st pt_init_pending)
    as [P B].
  destruct (fold_left _ _ _) as [l st1]. simpl in P, B.
  destruct (negb (Nat.eqb (aget (lens l) (which l)) 0)) eqn:L; auto.
  intros I. apply probe_one_events in I.
  destruct I as [I | [I | I]]; auto; right; subst e; simpl; auto.
  intros D. rewrite P in D; [discriminate|].
  intros Z0. rewrite Z0 in L. discriminate.
Qed.

(** C2. For the report made of the three lines (8,0,1000,sda),
    (8,1,500,sda1), (8,2,499,sda2), in this order and however they are
    spaced, the partition-table prober calls [probe_one] exactly twice:
    for sda1 and then for sda2, each with priority hint zero, and not for
    sda. *)
Theorem partition_fixture_probes_sda1_sda2 only_if_new l1 l2 l3 st :
  sscanf l1 fmt_partitions = (4, [VInt 8; VInt 0; VInt 1000; VStr "sda"]) ->
  sscanf l2 fmt_partitions = (4, [VInt 8; VInt 1; VInt 500; VStr "sda1"]) ->
  sscanf l3 fmt_partitions = (4, [VInt 8; VInt 2; VInt 499; VStr "sda2"]) ->
  probes_of
    (st_trace (probe_partitions H X W only_if_new [l1; l2; l3] st))
  = probes_of (st_trace st)
    ++ [EvProbeOne "sda1" (makedev H 8 1) 0 only_if_new;
        EvProbeOne "sda2" (makedev H 8 2) 0 only_if_new].
Proof.
  intros R1 R2 R3.
  unfold probe_partitions, pt_line. simpl fold_left.
  rewrite R1. simpl. rewrite R2. simpl. rewrite R3. simpl.
  rewrite !probe_one_probes, <- app_assoc. reflexivity.
Qed.

(** C7. Take a line of the partition report whose name ends in a decimal
    digit and whose size is exactly 1. Whatever the locals and the cache
    are when it is read, reading it calls nothing and leaves no pending
    candidate behind; and in any report, every call of [probe_one] for
    that name comes from some line of the report that carries the name
    with a size above 1, never from this one. *)
Theorem extended_partition_never_probed only_if_new lines line ma mi name :
  In line lines ->
  sscanf line fmt_partitions = (4, [VInt ma; VInt mi; VInt 1; VStr name]) ->
  ends_in_digit name = true ->
  (forall l st,
     snd (pt_line H X W only_if_new (l, st) line) = st
     /\ lens (fst (pt_line H X W only_if_new (l, st) line)) = (0, 0)%nat)
  /\ (forall st devno pri o,
        In (EvProbeOne name devno pri o)
           (st_trace (probe_partitions H X W only_if_new lines st)) ->
        In (EvProbeOne name devno pri o) (st_trace st)
        \/ exists line' ma' mi' sz',
             In line' lines
             /\ sscanf line' fmt_partitions
                = (4, [VInt ma'; VInt mi'; VInt sz'; VStr name])
             /\ 1 < sz' /\ devno = makedev H ma' mi').
Proof.
  intros _ R D. split.
  - intros l st. unfold pt_line. rewrite R. simpl. rewrite D. simpl.
    split; [reflexivity|]. now destruct (which l).
  - intros st devno pri o I.
    destruct (probe_partitions_backed only_if_new lines st _ I) as [I0 | B];
      [now left | right].
    exact (B D).
Qed.

End Partitions.

(** The fixture of C2 as /proc/partitions prints it, read by [fgets]. *)
Lemma partition_fixture_witness :
  probes_of
    (st_trace
       (probe_partitions (sample_header false) sample_externals
          (sample_world [] []) false
          (fgets_all 1024
             ("   8        0       1000 sda" ++ nl
              ++ "   8        1        500 sda1" ++ nl
              ++ "   8        2        499 sda2" ++ nl)%string)
          (start empty_cache)))
  = [EvProbeOne "sda1" 2049 0 false; EvProbeOne "sda2" 2050 0 false].
Proof.
  exact (partition_fixture_probes_sda1_sda2 (sample_header false)
           sample_externals (sample_world [] []) false
           ("   8        0       1000 sda" ++ nl)%string
           ("   8        1        500 sda1" ++ nl)%string
           ("   8        2        499 sda2" ++ nl)%string
           (start empty_cache) eq_refl eq_refl eq_refl).
Defined.

(** The extended partition sda5 between its disk and the next one. *)
Lemma extended_partition_witness :
  (forall l st,
     snd (pt_line (sample_header false) sample_externals (sample_world [] [])
            false (l, st) ("8 5 1 sda5" ++ nl)%string) = st
     /\ lens (fst (pt_line (sample_header false) sample_externals
                     (sample_world [] []) false (l, st)
                     ("8 5 1 sda5" ++ nl)%string)) = (0, 0)%nat)
  /\ (forall st devno pri o,
        In (EvProbeOne "sda5" devno pri o)
           (st_trace
              (probe_partitions (sample_header false) sample_externals
                 (sample_world [] []) false
                 ["8 0 1000 sda" ++ nl; "8 5 1 sda5" ++ nl;
                  "8 16 2000 sdb" ++ nl]%string st)) ->
        In (EvProbeOne "sda5" devno pri o) (st_trace st)
        \/ exists line' ma' mi' sz',
             In line' ["8 0 1000 sda" ++ nl; "8 5 1 sda5" ++ nl;
                       "8 16 2000 sdb" ++ nl]%string
             /\ sscanf line' fmt_partitions
                = (4, [VInt ma'; VInt mi'; VInt sz'; VStr "sda5"])
             /\ 1 < sz' /\ devno = makedev (sample_header false) ma' mi').
Proof.
  apply (extended_partition_never_probed (sample_header false)
           sample_externals (sample_world [] []) false
           ["8 0 1000 sda" ++ nl; "8 5 1 sda5" ++ nl;
            "8 16 2000 sdb" ++ nl]%string
           ("8 5 1 sda5" ++ nl)%string 8 5 "sda5").
  - simpl. right. left. reflexivity.
  - reflexivity.
  - reflexivity.
Defined.

(** ** blkid_get_dev *)

Section GetDev.

Variable H : blkid_header.

Lemma find_devname_none devs devname :
  forall i,
  find_devname devs devname i = None <-> ~ In devname (map bid_name devs).
Proof.
  induction devs as [|tmp rest IH]; intros i; simpl.
  - tauto.
  - unfold strcmp_is_zero.
    destruct (String.eqb (bid_name tmp) devname) eqn:E.
    + apply String.eqb_eq in E. split; [discriminate | tauto].
    + apply String.eqb_neq in E. rewrite IH. tauto.
Qed.

Lemma find_devname_some devs devname :
  forall i j,
  find_devname devs devname i = Some j ->
  exists k, j = (i + k)%nat
            /\ option_map bid_name (nth_error devs k) = Some devname.
Proof.
  induction devs as [|tmp rest IH]; intros i j; simpl; [discriminate|].
  unfold strcmp_is_zero.
  destruct (String.eqb (bid_name tmp) devname) eqn:E.
  - intros [= <-]. exists 0%nat. apply String.eqb_eq in E.
    simpl. rewrite E. split; [lia | reflexivity].
  - intros F. destruct (IH _ _ F) as (k & -> & N).
    exists (S k). split; [lia | exact N].
Qed.

Lemma find_devname_app devs more devname :
  forall i j,
  find_devname devs devname i = Some j ->
  find_devname (devs ++ more) devname i = Some j.
Proof.
  induction devs as [|tmp rest IH]; intros i j; simpl; [discriminate|].
  destruct (strcmp_is_zero (bid_name tmp) devname); auto.
Qed.

Lemma find_devname_appended devs d :
  forall i,
  find_devname devs (bid_name d) i = None ->
  find_devname (devs ++ [d]) (bid_name d) i = Some (i + List.length devs)%nat.
Proof.
  induction devs as [|tmp rest IH]; intros i; simpl.
  - unfold strcmp_is_zero. rewrite String.eqb_refl. intros _. f_equal. lia.
  - destruct (strcmp_is_zero (bid_name tmp) (bid_name d)); [discriminate|].
    intros F. rewrite (IH _ F). f_equal. lia.
Qed.


End GetDev.



(** ** probe_one *)

Section ProbeOne.

Variable H : blkid_header.
Variable X : externals.
Variable W : world.

Lemma scan_outcome_agrees devs :
  forall i devno only_if_new tr tr',
  fst (scan_devno H W devs i devno only_if_new tr)
  = fst (spec_scan_devno H W devs i devno only_if_new tr').
Proof.
  induction devs as [|tmp rest IH]; intros i devno oin tr tr'; simpl;
    [reflexivity|].
  destruct (HAVE_DEVMAPPER H).
  - destruct (bid_devno tmp =? devno) eqn:E.
    + apply Z.eqb_eq in E. rewrite E.
      destruct (negb (dm_device_is_leaf W devno)); [apply IH|].
      now destruct oin.
    + destruct (negb (dm_device_is_leaf W devno)),
               (negb (dm_device_is_leaf W (bid_devno tmp))); apply IH.
  - destruct (bid_devno tmp =? devno); [now destruct oin | apply IH].
Qed.

Lemma scan_devno_not_leaf devs :
  forall i devno only_if_new tr,
  HAVE_DEVMAPPER H = true ->
  dm_device_is_leaf W devno = false ->
  fst (scan_devno H W devs i devno only_if_new tr) = ScanEnd.
Proof.
  induction devs as [|tmp rest IH]; intros i devno oin tr D L; simpl;
    [reflexivity|].
  rewrite D, L. simpl. now apply IH.
Qed.

Lemma scan_devno_queries devs :
  forall i devno oin tr,
    HAVE_DEVMAPPER H = true ->
    dm_device_is_leaf W devno = false ->
    snd (scan_devno H W devs i devno oin tr)
    = tr ++ repeat (EvIsLeaf devno) (List.length devs).
Proof.
  induction devs as [|tmp rest IH]; intros i devno oin tr D L; simpl.
  - now rewrite app_nil_r.
  - rewrite D, L. simpl. rewrite IH by assumption.
    now rewrite <- app_assoc.
Qed.

Lemma scan_devno_leaf devs :
  forall i devno oin tr,
    HAVE_DEVMAPPER H = true ->
    dm_device_is_leaf W devno = true ->
    snd (scan_devno H W devs i devno oin tr)
    = tr ++ repeat (EvIsLeaf devno) (examined devs devno)
    /\ match fst (scan_devno H W devs i devno oin tr) with
       | ScanEnd => forall r, In r devs -> bid_devno r <> devno
       | ScanBreak tmp =>
           oin = false
           /\ exists k, tmp = (i + k)%nat /\ examined devs devno = S k
                        /\ option_map bid_devno (nth_error devs k)
                           = Some devno
       | ScanReturn =>
           oin = true
           /\ exists k, examined devs devno = S k
                        /\ option_map bid_devno (nth_error devs k)
                           = Some devno
       end.
Proof.
  induction devs as [|tmp rest IH]; intros i devno oin tr D L; simpl.
  - split; [now rewrite app_nil_r | intros r []].
  - rewrite D, L. simpl.
    destruct (bid_devno tmp =? devno) eqn:E.
    + apply Z.eqb_eq in E.
      destruct oin; simpl; (split; [reflexivity|]); (split; [reflexivity|]);
        exists 0%nat; simpl; rewrite E; auto using Nat.add_0_r.
    + apply Z.eqb_neq in E.
      destruct (IH (S i) devno oin (tr ++ [EvIsLeaf devno]) D L) as [T O].
      rewrite T. split; [now rewrite <- app_assoc|].
      destruct (fst (scan_devno H W rest (S i) devno oin
                       (tr ++ [EvIsLeaf devno]))).
      * destruct O as [O (k & K & N)]. split; [exact O|].
        exists (S k). now rewrite K.
      * destruct O as [O (k & T' & K & N)]. split; [exact O|].
        exists (S k). rewrite K. repeat split; [lia | exact N].
      * intros r [<-|I]; [exact E | now apply O].
Qed.

(** C3, as the code has it. With device-mapper support compiled in, the
    scan of the cache by device number asks at every candidate it looks
    at, once per candidate and whatever the candidate's device number,
    whether the queried device number is a leaf: these queries are all it
    adds to the trace. When the queried number is not a leaf, every
    candidate is skipped, one with the queried number included, and the
    scan ends without a match after as many queries as the cache has
    records. When it is a leaf, the candidates are compared in order up to
    the first one of the queried number, where the scan ends (at once with
    the only-if-new flag, on that record otherwise), and there were as
    many queries as candidates up to that one. In both cases the scan ends
    as one that tests each candidate record would. *)
Theorem leaf_test_on_queried_devno devs i devno only_if_new tr :
  HAVE_DEVMAPPER H = true ->
  snd (scan_devno H W devs i devno only_if_new tr)
  = tr ++ repeat (EvIsLeaf devno)
            (if dm_device_is_leaf W devno then examined devs devno
             else List.length devs)
  /\ (if dm_device_is_leaf W devno
      then
        match fst (scan_devno H W devs i devno only_if_new tr) with
        | ScanEnd => forall r, In r devs -> bid_devno r <> devno
        | ScanBreak tmp =>
            only_if_new = false
            /\ exists k, tmp = (i + k)%nat /\ examined devs devno = S k
                         /\ option_map bid_devno (nth_error devs k)
                            = Some devno
        | ScanReturn =>
            only_if_new = true
            /\ exists k, examined devs devno = S k
                         /\ option_map bid_devno (nth_error devs k)
                            = Some devno
        end
      else fst (scan_devno H W devs i devno only_if_new tr) = ScanEnd)
  /\ fst (scan_devno H W devs i devno only_if_new tr)
     = fst (spec_scan_devno H W devs i devno only_if_new tr).
Proof.
  intros D. split; [|split; [|apply scan_outcome_agrees]].
  - destruct (dm_device_is_leaf W devno) eqn:L.
    + now apply scan_devno_leaf.
    + now apply scan_devno_queries.
  - destruct (dm_device_is_leaf W devno) eqn:L.
    + now apply scan_devno_leaf.
    + now apply scan_devno_not_leaf.
Qed.

Lemma list_set_nth {A : Type} (l : list A) :
  forall i x y, nth_error l i = Some y -> nth_error (list_set l i x) i = Some x.
Proof.
  induction l as [|a l IH]; intros [|i] x y; simpl; try discriminate; auto.
  apply IH.
Qed.

Lemma set_bid_pri_get c d pri r :
  get_dev (set_bid_pri c d pri) d = Some r -> bid_pri r = pri.
Proof.
  unfold set_bid_pri. destruct (get_dev c d) as [r0|] eqn:G.
  - unfold get_dev in *. simpl. rewrite (list_set_nth _ _ _ _ G).
    now intros [= <-].
  - congruence.
Qed.

(** C5, as the code has it. For a short name that begins with "md", the
    record [probe_one] resolves gets the reserved RAID priority when the
    priority hint is zero, and the hint itself when it is not. *)
Theorem md_priority_only_for_zero_hint ptname devno pri only_if_new st
  d st' r :
  strncmp_is_zero ptname "md" 2 = true ->
  probe_one_run H X W ptname devno pri only_if_new st
  = (SetPri (Some d), st') ->
  get_dev (st_cache st') d = Some r ->
  bid_pri r = if pri =? 0 then BLKID_PRI_MD H else pri.
Proof.
  intros M. unfold probe_one_run.
  destruct (probe_one_resolve _ _ _ _ _ _ _) as [[|dev] st1];
    [discriminate|].
  intros [= -> <-]. simpl. unfold set_pri. rewrite M, andb_true_r.
  apply set_bid_pri_get.
Qed.

Lemma scan_devno_return devs :
  forall i devno tr,
  HAVE_DEVMAPPER H = false \/ dm_device_is_leaf W devno = true ->
  (exists r, In r devs /\ bid_devno r = devno) ->
  fst (scan_devno H W devs i devno true tr) = ScanReturn.
Proof.
  induction devs as [|tmp rest IH]; intros i devno tr L (r & I & E).
  - destruct I.
  - simpl.
    assert (C : forall tr',
               fst (if bid_devno tmp =? devno then (ScanReturn, tr')
                    else scan_devno H W rest (S i) devno true tr')
               = ScanReturn).
    { intros tr'. destruct (bid_devno tmp =? devno) eqn:B; [reflexivity|].
      apply IH; [exact L|]. destruct I as [-> | I].
      - apply Z.eqb_neq in B. contradiction.
      - now exists r. }
    destruct (HAVE_DEVMAPPER H); [|apply C].
    destruct L as [L | L]; [discriminate|]. rewrite L. apply C.
Qed.

(** C6, as the code has it. When the cache holds a record with the device
    number asked for, and either device-mapper support is not compiled in
    or that device number is a leaf, [probe_one] with [only_if_new] set
    returns from the scan of the cache and leaves the whole cache as it
    was: no priority changes, whatever the hint, and no record is
    created. *)
Theorem only_if_new_leaves_cache ptname devno pri st r :
  HAVE_DEVMAPPER H = false \/ dm_device_is_leaf W devno = true ->
  In r (bic_devs (st_cache st)) ->
  bid_devno r = devno ->
  fst (probe_one_run H X W ptname devno pri true st) = Return
  /\ st_cache (probe_one H X W ptname devno pri true st) = st_cache st.
Proof.
  intros L I E. unfold probe_one, probe_one_run, probe_one_resolve.
  pose proof (scan_devno_return (bic_devs (st_cache st)) 0 devno
                (st_trace st ++ [EvProbeOne ptname devno pri true]) L
                (ex_intro _ r (conj I E))) as S.
  simpl. destruct (scan_devno _ _ _ _ _ _ _) as [o tr]. simpl in S.
  subst o. simpl. auto.
Qed.

End ProbeOne.

(** C3 as stated fails: with the cached record of the non-leaf disk 8:0
    as the only candidate and the leaf 253:0 asked for, the code asks
    whether 253:0 is a leaf, finds that it is, and goes on to compare the
    candidate's device number; the test on the candidate record would ask
    about 8:0 and skip it before the comparison. *)
Lemma leaf_test_not_on_candidate :
  ~ (forall H W devs i devno only_if_new tr,
       HAVE_DEVMAPPER H = true ->
       scan_devno H W devs i devno only_if_new tr
       = spec_scan_devno H W devs i devno only_if_new tr).
Proof.
  intros C.
  specialize (C (sample_header true) stacked_world [sda_dev 0] 0%nat 64768
                false [] eq_refl).
  vm_compute in C. discriminate C.
Qed.

Lemma leaf_test_witness :
  snd (scan_devno (sample_header true) stacked_world
         [sda_dev 0; md0_dev; lv0_dev; lv0_dev] 0 64768 false [])
  = [] ++ repeat (EvIsLeaf 64768) 3
  /\ (false = false
      /\ exists k, 2%nat = (0 + k)%nat
                   /\ examined [sda_dev 0; md0_dev; lv0_dev; lv0_dev] 64768
                      = S k
                   /\ option_map bid_devno
                        (nth_error [sda_dev 0; md0_dev; lv0_dev; lv0_dev] k)
                      = Some 64768)
  /\ fst (scan_devno (sample_header true) stacked_world
            [sda_dev 0; md0_dev; lv0_dev; lv0_dev] 0 64768 false [])
     = fst (spec_scan_devno (sample_header true) stacked_world
              [sda_dev 0; md0_dev; lv0_dev; lv0_dev] 0 64768 false []).
Proof.
  exact (leaf_test_on_queried_devno (sample_header true) stacked_world
           [sda_dev 0; md0_dev; lv0_dev; lv0_dev] 0 64768 false []
           eq_refl).
Defined.

(** C5 as stated fails: the array md0, found in the cache by its device
    number and probed with the non-zero hint 30, keeps the hint. *)
Lemma md_priority_nonzero_hint_kept :
  ~ (forall H X W ptname devno pri only_if_new st d st' r,
       strncmp_is_zero ptname "md" 2 = true ->
       probe_one_run H X W ptname devno pri only_if_new st
       = (SetPri (Some d), st') ->
       get_dev (st_cache st') d = Some r ->
       bid_pri r = BLKID_PRI_MD H).
Proof.
  intros C.
  specialize (C (sample_header false) sample_externals (sample_world [] [])
                "md0" 2304 30 false (start (cache_of [md0_dev])) 0%nat
                _ _ eq_refl eq_refl eq_refl).
  vm_compute in C. discriminate C.
Qed.

Lemma md_priority_witness :
  exists st' r,
    probe_one_run (sample_header false) sample_externals (sample_world [] [])
      "md0" 2304 0 false (start (cache_of [md0_dev]))
    = (SetPri (Some 0%nat), st')
    /\ get_dev (st_cache st') 0 = Some r
    /\ bid_pri r = 10.
Proof.
  do 2 eexists. split; [reflexivity|]. split; [reflexivity|].
  apply (md_priority_only_for_zero_hint (sample_header false)
           sample_externals (sample_world [] []) "md0" 2304 0 false
           (start (cache_of [md0_dev])) 0%nat _ _ eq_refl eq_refl eq_refl).
Defined.

(** C6 as stated fails where device-mapper support is compiled in: the
    disk 8:0 is cached with priority 5 and is not a leaf, so the scan of
    the cache skips its record; the walk over the device directories then
    finds /dev/sda in the cache and the record gets the hint, zero. *)
Lemma only_if_new_touches_non_leaf :
  ~ (forall H X W ptname devno pri st r,
       In r (bic_devs (st_cache st)) ->
       bid_devno r = devno ->
       st_cache (probe_one H X W ptname devno pri true st) = st_cache st).
Proof.
  intros C.
  specialize (C (sample_header true) sample_externals stacked_world
                "sda" 2048 0 (start (cache_of [sda_dev 5])) (sda_dev 5)
                (or_introl eq_refl) eq_refl).
  vm_compute in C. discriminate C.
Qed.

Lemma only_if_new_witness :
  fst (probe_one_run (sample_header false) sample_externals
         (sample_world [] []) "sda" 2048 40 true
         (start (cache_of [sda_dev 5]))) = Return
  /\ st_cache (probe_one (sample_header false) sample_externals
                 (sample_world [] []) "sda" 2048 40 true
                 (start (cache_of [sda_dev 5])))
     = st_cache (start (cache_of [sda_dev 5])).
Proof.
  apply (only_if_new_leaves_cache (sample_header false) sample_externals
           (sample_world [] []) "sda" 2048 40
           (start (cache_of [sda_dev 5])) (sda_dev 5)).
  - left. reflexivity.
  - simpl. left. reflexivity.
  - reflexivity.
Defined.

(** ** The orchestrator *)





Section Orchestrator.

Variable H : blkid_header.
Variable X : externals.
Variable W : world.










End Orchestrator.

Section Stamp.

Variable H : blkid_header.

Lemma land_lor_same (f p : Z) : Z.land (Z.lor f p) p = p.
Proof.
  apply Z.bits_inj'. intros n _.
  rewrite Z.land_spec, Z.lor_spec.
  destruct (Z.testbit f n), (Z.testbit p n); reflexivity.
Qed.

Lemma probe_all_ret (X : externals) (W : world) now only_if_new st :
  fst (probe_all H X W now only_if_new st)
  = if recently_probed H now (st_cache st) then 0
    else match fopen W PROC_PARTITIONS with
         | None => - BLKID_ERR_PROC H
         | Some _ => 0
         end.
Proof.
  unfold probe_all. destruct (recently_probed H now (st_cache st));
    [reflexivity|].
  destruct (fopen W PROC_PARTITIONS); reflexivity.
Qed.

(** C10. [blkid_probe_all] stamps the cache with the current time and sets
    the fully-probed flag whatever [probe_all] returned, the proc error
    for a partition report that cannot be opened included. A second call
    made less than the probe interval after the stamp therefore returns 0
    at once: it adds nothing to the trace, so it asks no source, and the
    records are as the first call left them. *)
Theorem probe_all_stamps_even_on_failure (X X' : externals) (W W' : world)
  now now' now2 now2' st :
  BLKID_BIC_FL_PROBED H <> 0 ->
  now2 - now' < BLKID_PROBE_INTERVAL H ->
  fst (blkid_probe_all H X W now now' st)
  = (if recently_probed H now (st_cache st) then 0
     else match fopen W PROC_PARTITIONS with
          | None => - BLKID_ERR_PROC H
          | Some _ => 0
          end)
  /\ bic_time (st_cache (snd (blkid_probe_all H X W now now' st))) = now'
  /\ Z.land (bic_flags (st_cache (snd (blkid_probe_all H X W now now' st))))
       (BLKID_BIC_FL_PROBED H) = BLKID_BIC_FL_PROBED H
  /\ fst (blkid_probe_all H X' W' now2 now2'
            (snd (blkid_probe_all H X W now now' st))) = 0
  /\ st_trace (snd (blkid_probe_all H X' W' now2 now2'
                      (snd (blkid_probe_all H X W now now' st))))
     = st_trace (snd (blkid_probe_all H X W now now' st))
  /\ bic_devs (st_cache (snd (blkid_probe_all H X' W' now2 now2'
                                (snd (blkid_probe_all H X W now now' st)))))
     = bic_devs (st_cache (snd (blkid_probe_all H X W now now' st))).
Proof.
  intros P T.
  pose proof (probe_all_ret X W now false st) as R.
  destruct (blkid_probe_all H X W now now' st) as [ret st2] eqn:E.
  unfold blkid_probe_all in E.
  destruct (probe_all H X W now false st) as [ret1 st1]. simpl in R.
  injection E as <- <-. simpl.
  split; [exact R|]. split; [reflexivity|].
  split; [apply land_lor_same|].
  set (st2 := with_cache _ st1).
  assert (G : recently_probed H now2 (st_cache st2) = true).
  { unfold recently_probed, flag_set. simpl.
    rewrite land_lor_same.
    apply andb_true_iff. split.
    - apply negb_true_iff. now apply Z.eqb_neq.
    - now apply Z.ltb_lt. }
  unfold blkid_probe_all, probe_all. rewrite G. simpl. auto.
Qed.

End Stamp.

(** A first call on a system without /proc/partitions: the pass fails with
    the proc error; the call repeated 99 seconds later returns 0 although
    the report has appeared in the meantime. *)
Lemma probe_all_stamps_witness :
  fst (blkid_probe_all (sample_header false) sample_externals
         (sample_world [] []) 1000 1001 (start empty_cache)) = -9
  /\ bic_time
       (st_cache
          (snd (blkid_probe_all (sample_header false) sample_externals
                  (sample_world [] []) 1000 1001 (start empty_cache))))
     = 1001
  /\ Z.land
       (bic_flags
          (st_cache
             (snd (blkid_probe_all (sample_header false) sample_externals
                     (sample_world [] []) 1000 1001 (start empty_cache)))))
       2 = 2
  /\ fst (blkid_probe_all (sample_header false) sample_externals
            (sample_world [(PROC_PARTITIONS, "8 16 2000 sdb" ++ nl)%string]
               [])
            1100 1100
            (snd (blkid_probe_all (sample_header false) sample_externals
                    (sample_world [] []) 1000 1001 (start empty_cache))))
     = 0
  /\ st_trace
       (snd (blkid_probe_all (sample_header false) sample_externals
               (sample_world [(PROC_PARTITIONS, "8 16 2000 sdb" ++ nl)%string]
                  [])
               1100 1100
               (snd (blkid_probe_all (sample_header false) sample_externals
                       (sample_world [] []) 1000 1001 (start empty_cache)))))
     = st_trace
         (snd (blkid_probe_all (sample_header false) sample_externals
                 (sample_world [] []) 1000 1001 (start empty_cache)))
  /\ bic_devs
       (st_cache
          (snd (blkid_probe_all (sample_header false) sample_externals
                  (sample_world
                     [(PROC_PARTITIONS, "8 16 2000 sdb" ++ nl)%string] [])
                  1100 1100
                  (snd (blkid_probe_all (sample_header false)
                          sample_externals (sample_world [] []) 1000 1001
                          (start empty_cache))))))
     = bic_devs
         (st_cache
            (snd (blkid_probe_all (sample_header false) sample_externals
                    (sample_world [] []) 1000 1001 (start empty_cache)))).
Proof.
  apply (probe_all_stamps_even_on_failure (sample_header false)
           sample_externals sample_externals (sample_world [] [])
           (sample_world [(PROC_PARTITIONS, "8 16 2000 sdb" ++ nl)%string] [])
           1000 1001 1100 1100 (start empty_cache)).
  - discriminate.
  - reflexivity.
Defined.


(** C4: a logical volume whose metadata file has no "device:" line gets
    device number zero, and [lvm_probe_all] passes it to [probe_one] all
    the same. Here the cache holds a record that [blkid_get_dev] created
    and nobody verified, so its device number is still zero: the resolver
    takes it for the volume and gives it the LVM priority. *)
Theorem lvm_devno_zero_still_probed :
  lvm_get_devno (sample_header false) lvm_world "/proc/lvm/VGs/vg0/LVs/lv0"
  = 0
  /\ map bid_pri (bic_devs unverified_cache) = [0]
  /\ probes_of
       (st_trace (lvm_probe_all (sample_header false) sample_externals
                    lvm_world false (start unverified_cache)))
     = [EvProbeOne "vg0/lv0" 0 20 false]
  /\ map bid_pri
       (bic_devs
          (st_cache (lvm_probe_all (sample_header false) sample_externals
                       lvm_world false (start unverified_cache))))
     = [20].
Proof. vm_compute. auto. Qed.

(** ** The lines of the EVMS volume report *)

Lemma space_not_digit c : isspace c = true -> isdigit c = false.
Proof.
  unfold isspace, isdigit. intros S.
  apply orb_true_iff in S. apply andb_false_iff.
  destruct S as [S | S].
  - apply Nat.eqb_eq in S. rewrite S. now left.
  - apply andb_true_iff in S. destruct S as [_ S].
    apply Nat.leb_le in S. left. apply Nat.leb_gt. lia.
Qed.

Lemma skip_space_app w s :
  all_chars isspace w = true -> skip_space (w ++ s) = skip_space s.
Proof.
  induction w as [|c w IH]; simpl; [reflexivity|].
  intros A. apply andb_true_iff in A. destruct A as [C A].
  rewrite C. now apply IH.
Qed.

Lemma skip_space_token t s :
  is_token t = true -> skip_space (t ++ s) = (t ++ s)%string.
Proof.
  destruct t as [|c t]; [discriminate|]. unfold is_token. simpl.
  intros A. apply andb_true_iff in A. destruct A as [C _].
  apply negb_true_iff in C. now rewrite C.
Qed.

Lemma skip_space_render toks :
  wf_tokens toks = true -> skip_space (render toks) = render toks.
Proof.
  destruct toks as [|[t w] r]; [reflexivity|]. simpl.
  intros A. andb_hyps. now apply skip_space_token.
Qed.

Lemma boundary_sep t w r :
  wf_tokens ((t, w) :: r) = true -> boundary (w ++ render r) = true.
Proof.
  simpl. intros A. andb_hyps.
  destruct w as [|c w]; simpl in *.
  - destruct r; [reflexivity | discriminate].
  - andb_hyps. assumption.
Qed.


Lemma scan_digits_app d s :
  all_chars isdigit d = true -> boundary s = true ->
  forall acc, scan_digits acc (d ++ s) = (fst (scan_digits acc d), s)
              /\ snd (scan_digits acc d) = "".
Proof.
  intros A B. induction d as [|c d IH]; intros acc; simpl in *.
  - destruct s as [|c s]; simpl in *; [auto|].
    now rewrite (space_not_digit c B).
  - apply andb_true_iff in A. destruct A as [C A]. rewrite C. now apply IH.
Qed.

Lemma starts_with_digit_app d s :
  all_digits d = true -> starts_with_digit (d ++ s) = true.
Proof.
  destruct d as [|c d]; [discriminate|]. unfold all_digits. simpl.
  intros A. now apply andb_true_iff in A.
Qed.

Lemma scan_number_token t s :
  is_decimal t = true -> boundary s = true ->
  exists neg m,
    scan_number t = Some (neg, m, "")
    /\ scan_number (t ++ s) = Some (neg, m, s).
Proof.
  intros D B.
  assert (G : forall d (neg : bool), all_digits d = true ->
            (if starts_with_digit d
             then let '(m, rest) := scan_digits 0 d in Some (neg, m, rest)
             else None) = Some (neg, fst (scan_digits 0 d), "")
            /\ (if starts_with_digit (d ++ s)
                then let '(m, rest) := scan_digits 0 (d ++ s) in
                     Some (neg, m, rest)
                else None) = Some (neg, fst (scan_digits 0 d), s)).
  { intros d neg A. rewrite (starts_with_digit_app d s A).
    assert (A' := A). unfold all_digits in A'.
    apply andb_true_iff in A'. destruct A' as [N A'].
    destruct (scan_digits_app d s A' B 0) as [E1 E2]. rewrite E1.
    split; [|reflexivity].
    destruct d as [|c d]; [discriminate|].
    assert (S : starts_with_digit (String c d) = true)
      by (simpl in *; now apply andb_true_iff in A').
    rewrite S. destruct (scan_digits 0 (String c d)) as [m rest].
    simpl in *. now subst rest. }
  destruct t as [|c t]; [discriminate|].
  change (String c t ++ s)%string with (String c (t ++ s)).
  unfold is_decimal in D. unfold scan_number. cbv beta iota.
  destruct (Ascii.eqb c "-").
  - exists true, (fst (scan_digits 0 t)). now apply G.
  - destruct (Ascii.eqb c "+").
    + exists false, (fst (scan_digits 0 t)). now apply G.
    + exists false, (fst (scan_digits 0 (String c t))).
      apply (G (String c t) false D).
Qed.

Lemma dint_token t s :
  is_token t = true -> is_decimal t = true -> boundary s = true ->
  scan_directive DInt (t ++ s) = Matched (Some (VInt (int_of_token t))) s.
Proof.
  intros T D B. unfold scan_directive. rewrite (skip_space_token t s T).
  destruct (scan_number_token t s D B) as (neg & m & E1 & E2).
  unfold int_of_token. rewrite E1.
  destruct t as [|c t]; [discriminate|].
  change (String c t ++ s)%string with (String c (t ++ s)) in *.
  cbv beta iota. now rewrite E2.
Qed.


Lemma dspace_sep w toks :
  all_chars isspace w = true -> wf_tokens toks = true ->
  scan_directive DSpace (w ++ render toks) = Matched None (render toks).
Proof.
  intros A F. simpl. now rewrite skip_space_app, skip_space_render.
Qed.

Lemma nonspace_in_path_set c :
  isspace c = false -> in_scanset path_set c = true.
Proof.
  intros S. unfold in_scanset, path_set. simpl.
  destruct (Ascii.eqb_spec c newline) as [-> | _]; [discriminate|].
  destruct (Ascii.eqb_spec c " "%char) as [-> | _]; [discriminate|].
  reflexivity.
Qed.



Lemma wf_tokens_inv t w r :
  wf_tokens ((t, w) :: r) = true ->
  is_token t = true /\ all_chars isspace w = true
  /\ boundary (w ++ render r) = true /\ wf_tokens r = true.
Proof.
  intros F. pose proof (boundary_sep t w r F) as B.
  simpl in F. andb_hyps. auto.
Qed.

Lemma skip_space_blank w :
  all_chars isspace w = true -> skip_space (w ++ "") = "".
Proof. intros A. now rewrite skip_space_app. Qed.

Lemma field_end w d fmt :
  all_chars isspace w = true ->
  d = DInt \/ d = DSkipString \/ d = DScanset None path_set ->
  scan_format (DSpace :: d :: fmt) (w ++ render [])
  = ([], false, Some InputFailure).
Proof.
  intros A D. cbn [scan_format render]. unfold scan_directive at 1.
  rewrite (skip_space_blank w A).
  destruct D as [-> | [-> | ->]]; reflexivity.
Qed.

Lemma field_int w t w' r fmt :
  all_chars isspace w = true ->
  wf_tokens ((t, w') :: r) = true ->
  is_decimal t = true ->
  scan_format (DSpace :: DInt :: fmt) (w ++ render ((t, w') :: r))
  = let '(vs, conv, f) := scan_format fmt (w' ++ render r) in
    (VInt (int_of_token t) :: vs, true, f).
Proof.
  intros A F D. destruct (wf_tokens_inv t w' r F) as (T & A' & B & F').
  cbn [scan_format]. rewrite (dspace_sep w _ A F).
  cbn [render]. rewrite (dint_token t _ T D B).
  destruct (scan_format fmt _) as [[vs conv] f]. reflexivity.
Qed.



Section Evms.

Variable H : blkid_header.
Variable X : externals.
Variable W : world.


End Evms.



(** * Further properties *)

(** ** The trace of a pass without its leaf queries *)

Lemma without_leaf_queries_app (a b : list event) :
  without_leaf_queries (a ++ b)
  = without_leaf_queries a ++ without_leaf_queries b.
Proof. apply filter_app. Qed.

Lemma leaf_queries_filtered (devno : Z) (q : list event) :
  Forall (fun e => e = EvIsLeaf devno) q -> without_leaf_queries q = [].
Proof.
  induction 1 as [|e q E _ IH]; [reflexivity|].
  subst e. exact IH.
Qed.

Lemma probes_without_leaf_queries (tr : list event) :
  probes_of (without_leaf_queries tr) = probes_of tr.
Proof.
  induction tr as [|e tr IH]; [reflexivity|].
  destruct e; simpl; try (f_equal; exact IH); exact IH.
Qed.

Lemma fold_events {A B : Type} (proj : B -> list event) (f : B -> A -> B)
  (g : A -> list event) (l : list A) :
  (forall b a,
     without_leaf_queries (proj (f b a))
     = without_leaf_queries (proj b) ++ g a) ->
  forall b,
    without_leaf_queries (proj (fold_left f l b))
    = without_leaf_queries (proj b) ++ flat_map g l.
Proof.
  intros F. induction l as [|a l IH]; intros b; simpl.
  - now rewrite app_nil_r.
  - now rewrite IH, F, <- app_assoc.
Qed.

Section PassEvents.

Variable H : blkid_header.
Variable X : externals.
Variable W : world.
Variable only_if_new : bool.

Lemma tell_events e st :
  is_leaf_query e = false ->
  without_leaf_queries (st_trace (tell e st))
  = without_leaf_queries (st_trace st) ++ [e].
Proof.
  intros L. simpl. rewrite without_leaf_queries_app. simpl.
  now rewrite L.
Qed.

Lemma probe_one_events_added ptname devno pri st :
  without_leaf_queries
    (st_trace (probe_one H X W ptname devno pri only_if_new st))
  = without_leaf_queries (st_trace st)
    ++ [EvProbeOne ptname devno pri only_if_new].
Proof.
  destruct (probe_one_trace H X W ptname devno pri only_if_new st)
    as (q & E & F).
  rewrite E, without_leaf_queries_app. simpl.
  now rewrite (leaf_queries_filtered devno q F).
Qed.

Lemma dm_probe_all_events st :
  without_leaf_queries (st_trace (dm_probe_all H X W only_if_new st))
  = without_leaf_queries (st_trace st) ++ dm_events H W only_if_new.
Proof.
  unfold dm_probe_all, dm_events.
  destruct (negb (dm_task_create W)); [now apply tell_events|].
  assert (F : forall l st0,
            without_leaf_queries
              (st_trace
                 (fold_left
                    (fun st d =>
                       let device := ("mapper/" ++ dm_name d)%string in
                       let dev := dm_get_devno H W (dm_name d) in
                       if dev =? 0 then st
                       else
                         let st := tell (EvIsLeaf dev) st in
                         if negb (dm_device_is_leaf W dev) then st
                         else probe_one H X W device dev (BLKID_PRI_DM H)
                                only_if_new st) l st0))
            = without_leaf_queries (st_trace st0)
              ++ flat_map (dm_entry_events H W only_if_new) l).
  { intros l. apply (fold_events st_trace). intros b d.
    unfold dm_entry_events.
    destruct (dm_get_devno H W (dm_name d) =? 0);
      [now rewrite app_nil_r|].
    assert (T : without_leaf_queries
                  (st_trace (tell (EvIsLeaf (dm_get_devno H W (dm_name d))) b))
                = without_leaf_queries (st_trace b)).
    { simpl. rewrite without_leaf_queries_app. simpl. apply app_nil_r. }
    destruct (negb (dm_device_is_leaf W _)).
    - rewrite T. now rewrite app_nil_r.
    - now rewrite probe_one_events_added, T. }
  destruct (dm_names W) as [|d names] eqn:N.
  - now apply tell_events.
  - rewrite F, tell_events by reflexivity. now rewrite <- app_assoc.
Qed.

Lemma evms_line_events_added acc line :
  without_leaf_queries
    (st_trace (snd (evms_line H X W only_if_new acc line)))
  = without_leaf_queries (st_trace (snd acc))
    ++ evms_line_events H only_if_new line
  /\ fst (evms_line H X W only_if_new acc line)
     = fst acc
       + Z.of_nat (List.length (evms_line_events H only_if_new line)).
Proof.
  unfold evms_line, evms_line_events. destruct acc as [num st].
  destruct (sscanf line fmt_evms) as [n vs].
  destruct (negb (n =? 4)); [simpl; rewrite app_nil_r; split; [auto|lia]|].
  destruct vs as [|[ma|] [|[mi|] [|[sz|] [|[|device] [|]]]]];
    try (simpl; rewrite app_nil_r; split; [auto|lia]).
  simpl. split; [apply probe_one_events_added | reflexivity].
Qed.

Lemma evms_probe_all_events st :
  without_leaf_queries
    (st_trace (snd (evms_probe_all H X W only_if_new st)))
  = without_leaf_queries (st_trace st) ++ evms_events H W only_if_new.
Proof.
  unfold evms_probe_all, evms_events.
  destruct (fopen W PROC_EVMS_VOLUMES) as [content|];
    [|now apply tell_events].
  rewrite (fold_events (fun acc : Z * state => st_trace (snd acc))
             (evms_line H X W only_if_new)
             (evms_line_events H only_if_new)).
  - simpl snd. rewrite tell_events by reflexivity. now rewrite <- app_assoc.
  - intros b a. apply evms_line_events_added.
Qed.

Lemma lvm_probe_all_events st :
  without_leaf_queries (st_trace (lvm_probe_all H X W only_if_new st))
  = without_leaf_queries (st_trace st) ++ lvm_events H W only_if_new.
Proof.
  unfold lvm_probe_all, lvm_events.
  destruct (opendir W VG_DIR) as [vg_list|]; [|now apply tell_events].
  rewrite (fold_events st_trace _ (lvm_vg_events H W only_if_new)).
  - rewrite tell_events by reflexivity. now rewrite <- app_assoc.
  - intros b vg_name. unfold lvm_vg_events.
    destruct (is_dot_or_dotdot vg_name); [now rewrite app_nil_r|].
    destruct (opendir W _) as [lv_list|]; [|now apply tell_events].
    rewrite (fold_events st_trace _ (lvm_lv_events H W only_if_new vg_name)).
    + rewrite tell_events by reflexivity. now rewrite <- app_assoc.
    + intros b' lv_name. unfold lvm_lv_events.
      destruct (is_dot_or_dotdot lv_name); [now rewrite app_nil_r|].
      rewrite probe_one_events_added, tell_events by reflexivity.
      now rewrite <- app_assoc.
Qed.

Lemma pt_line_events_added l st line :
  fst (pt_line H X W only_if_new (l, st) line)
  = fst (pt_step H only_if_new l line)
  /\ without_leaf_queries
       (st_trace (snd (pt_line H X W only_if_new (l, st) line)))
     = without_leaf_queries (st_trace st)
       ++ snd (pt_step H only_if_new l line).
Proof.
  unfold pt_line, pt_step.
  destruct (sscanf line fmt_partitions) as [n vs].
  destruct (negb (n =? 4)); [simpl; now rewrite app_nil_r|].
  destruct vs as [|[ma|] [|[mi|] [|[sz|] [|[|ptname] [|]]]]];
    try (simpl; now rewrite app_nil_r).
  destruct (ends_in_digit ptname).
  - destruct (1 <? sz); simpl; split; auto.
    + apply probe_one_events_added.
    + now rewrite app_nil_r.
  - destruct (_ && _); simpl; split; auto.
    + apply probe_one_events_added.
    + now rewrite app_nil_r.
Qed.

Lemma pt_loop_events lines :
  forall l st,
  without_leaf_queries
    (st_trace
       (let '(l', st') :=
          fold_left (pt_line H X W only_if_new) lines (l, st) in
        if negb (Nat.eqb (aget (lens l') (which l')) 0)
        then probe_one H X W (aget (ptnames l') (which l'))
               (aget (devs l') (which l')) 0 only_if_new st'
        else st'))
  = without_leaf_queries (st_trace st)
    ++ pt_events_from H only_if_new l lines.
Proof.
  induction lines as [|line lines IH]; intros l st; cbn [fold_left].
  - simpl. unfold pt_last.
    destruct (negb _); [apply probe_one_events_added | now rewrite app_nil_r].
  - destruct (pt_line_events_added l st line) as [E1 E2].
    destruct (pt_line H X W only_if_new (l, st) line) as [l1 st1].
    simpl in E1, E2. rewrite IH, E2. cbn [pt_events_from].
    now rewrite E1, <- app_assoc.
Qed.

Lemma probe_partitions_events lines st :
  without_leaf_queries
    (st_trace (probe_partitions H X W only_if_new lines st))
  = without_leaf_queries (st_trace st)
    ++ pt_events_from H only_if_new pt_init lines.
Proof. apply pt_loop_events. Qed.

Lemma probe_all_events now st :
  without_leaf_queries
    (st_trace (snd (probe_all H X W now only_if_new st)))
  = without_leaf_queries (st_trace st)
    ++ (if recently_probed H now (st_cache st) then []
        else pass_events H W only_if_new).
Proof.
  unfold probe_all, pass_events, partitions_events.
  destruct (recently_probed H now (st_cache st));
    [now rewrite app_nil_r|].
  set (st1 := with_cache _ (tell EvReadCache st)).
  assert (T1 : without_leaf_queries (st_trace st1)
               = without_leaf_queries (st_trace st) ++ [EvReadCache])
    by (apply tell_events; reflexivity).
  set (st2 := if HAVE_DEVMAPPER H then dm_probe_all H X W only_if_new st1
              else st1).
  assert (T2 : without_leaf_queries (st_trace st2)
               = without_leaf_queries (st_trace st1)
                 ++ (if HAVE_DEVMAPPER H then dm_events H W only_if_new
                     else [])).
  { subst st2. destruct (HAVE_DEVMAPPER H);
      [apply dm_probe_all_events | now rewrite app_nil_r]. }
  pose proof (evms_probe_all_events st2) as T3.
  set (st3 := snd (evms_probe_all H X W only_if_new st2)) in *.
  pose proof (lvm_probe_all_events st3) as T4.
  set (st4 := lvm_probe_all H X W only_if_new st3) in *.
  destruct (fopen W PROC_PARTITIONS) as [content|]; simpl snd.
  - simpl st_trace. rewrite without_leaf_queries_app.
    rewrite probe_partitions_events, tell_events by reflexivity.
    rewrite T4, T3, T2, T1. simpl.
    repeat rewrite <- app_assoc. reflexivity.
  - rewrite tell_events by reflexivity. rewrite T4, T3, T2, T1. simpl.
    repeat rewrite <- app_assoc. reflexivity.
Qed.

End PassEvents.

Lemma in_without_leaf_queries (e : event) (tr : list event) :
  is_leaf_query e = false ->
  (In e (without_leaf_queries tr) <-> In e tr).
Proof.
  intros L. unfold without_leaf_queries. rewrite filter_In, L. simpl. tauto.
Qed.

(** An event that is no leaf query is in the trace afterwards when it was
    there before or is one of the events added. *)
Lemma in_trace_added (e : event) (tr tr' evs : list event) :
  without_leaf_queries tr' = without_leaf_queries tr ++ evs ->
  is_leaf_query e = false ->
  (In e tr' <-> In e tr \/ In e evs).
Proof.
  intros E L.
  rewrite <- (in_without_leaf_queries e tr' L), E, in_app_iff.
  now rewrite (in_without_leaf_queries e tr L).
Qed.

(** ** blkid_get_dev: lookups *)

Section Lookup.

Variable H : blkid_header.

Lemma find_devname_first devs devname :
  forall i j,
  find_devname devs devname i = Some j ->
  forall k r, (i + k < j)%nat -> nth_error devs k = Some r ->
              bid_name r <> devname.
Proof.
  induction devs as [|tmp rest IH]; intros i j; simpl; [discriminate|].
  unfold strcmp_is_zero.
  destruct (String.eqb (bid_name tmp) devname) eqn:E.
  - intros [= <-] k r L. lia.
  - intros F [|k] r L; simpl.
    + intros [= <-]. now apply String.eqb_neq.
    + apply (IH _ _ F). lia.
Qed.

(** X1. Without the verify flag, a name the cache holds is found at the
    first record that carries it, whether the create flag is set or not,
    and the cache is left as it was. *)
Theorem get_dev_finds_first_record (X : externals)
  (cache : blkid_struct_cache) (devname : string) (flags : Z) :
  flag_set flags (BLKID_DEV_VERIFY H) = false ->
  In devname (map bid_name (bic_devs cache)) ->
  exists d,
    blkid_get_dev H X cache devname flags = (Some d, cache)
    /\ option_map bid_name (get_dev cache d) = Some devname
    /\ forall k r, (k < d)%nat -> get_dev cache k = Some r ->
                   bid_name r <> devname.
Proof.
  intros V I. unfold blkid_get_dev.
  destruct (find_devname (bic_devs cache) devname 0) as [d|] eqn:F.
  - exists d. rewrite V. split; [reflexivity|]. split.
    + destruct (find_devname_some _ _ _ _ F) as (k & -> & N). exact N.
    + intros k r L. apply (find_devname_first _ _ _ _ F). exact L.
  - apply find_devname_none in F. contradiction.
Qed.

Lemma find_devname_other devs d other :
  other <> bid_name d ->
  forall i, find_devname (devs ++ [d]) other i = find_devname devs other i.
Proof.
  intros N. induction devs as [|tmp rest IH]; intros i; simpl.
  - unfold strcmp_is_zero.
    destruct (String.eqb_spec (bid_name d) other); [congruence | reflexivity].
  - destruct (strcmp_is_zero (bid_name tmp) other); auto.
Qed.

(** X2. Creating the record of a name the cache does not hold appends it:
    the pointers handed out before still lead to the same records, the
    lookup of any other name returns what it returned before, the new
    record is found under its name, and the cache is marked as changed. *)
Theorem get_dev_create_keeps_others (X X' : externals)
  (cache : blkid_struct_cache) (devname : string) (flags : Z) :
  flag_set flags (BLKID_DEV_CREATE H) = true ->
  flag_set flags (BLKID_DEV_VERIFY H) = false ->
  blkid_new_dev X <> None ->
  ~ In devname (map bid_name (bic_devs cache)) ->
  exists cache1,
    blkid_get_dev H X cache devname flags
    = (Some (List.length (bic_devs cache)), cache1)
    /\ (forall k r, get_dev cache k = Some r -> get_dev cache1 k = Some r)
    /\ (forall other flags',
          other <> devname ->
          flag_set flags' (BLKID_DEV_CREATE H) = false ->
          flag_set flags' (BLKID_DEV_VERIFY H) = false ->
          blkid_get_dev H X' cache1 other flags'
          = (fst (blkid_get_dev H X' cache other flags'), cache1))
    /\ (forall flags',
          flag_set flags' (BLKID_DEV_VERIFY H) = false ->
          blkid_get_dev H X' cache1 devname flags'
          = (Some (List.length (bic_devs cache)), cache1))
    /\ Z.land (bic_flags cache1) (BLKID_BIC_FL_CHANGED H)
       = BLKID_BIC_FL_CHANGED H.
Proof.
  intros C V A U. unfold blkid_get_dev at 1.
  apply (find_devname_none _ _ 0%nat) in U. rewrite U, C, V.
  destruct (blkid_new_dev X) as [fresh|]; [clear A | congruence].
  set (d := {| bid_name := devname; bid_devno := bid_devno fresh;
               bid_pri := bid_pri fresh; bid_time := INT_MIN H |}).
  eexists. split; [reflexivity|]. simpl. repeat split.
  - intros k r G. unfold get_dev in *. simpl.
    rewrite nth_error_app1; [exact G|].
    apply nth_error_Some. congruence.
  - intros other flags' N C' V'. unfold blkid_get_dev. simpl.
    rewrite (find_devname_other (bic_devs cache) d other N 0).
    rewrite C', V'.
    destruct (find_devname (bic_devs cache) other 0); reflexivity.
  - intros flags' V'.
    pose proof (find_devname_appended (bic_devs cache) d 0 U) as F.
    unfold blkid_get_dev. simpl in *. rewrite F, V'. reflexivity.
  - apply land_lor_same.
Qed.

End Lookup.

Lemma get_dev_finds_first_record_witness :
  exists d,
    blkid_get_dev (sample_header false) sample_externals
      (cache_of [sda_dev 0; md0_dev; sda_dev 7]) "/dev/sda" 1
    = (Some d, cache_of [sda_dev 0; md0_dev; sda_dev 7])
    /\ option_map bid_name
         (get_dev (cache_of [sda_dev 0; md0_dev; sda_dev 7]) d)
       = Some "/dev/sda"
    /\ forall k r, (k < d)%nat ->
                   get_dev (cache_of [sda_dev 0; md0_dev; sda_dev 7]) k
                   = Some r ->
                   bid_name r <> "/dev/sda".
Proof.
  apply (get_dev_finds_first_record (sample_header false) sample_externals
           (cache_of [sda_dev 0; md0_dev; sda_dev 7]) "/dev/sda" 1).
  - reflexivity.
  - simpl. left. reflexivity.
Defined.

Lemma get_dev_create_keeps_others_witness :
  exists cache1,
    blkid_get_dev (sample_header false) sample_externals
      (cache_of [sda_dev 0]) "/dev/md0" 1
    = (Some (List.length (bic_devs (cache_of [sda_dev 0]))), cache1)
    /\ (forall k r, get_dev (cache_of [sda_dev 0]) k = Some r ->
                    get_dev cache1 k = Some r)
    /\ (forall other flags',
          other <> "/dev/md0" ->
          flag_set flags' (BLKID_DEV_CREATE (sample_header false)) = false ->
          flag_set flags' (BLKID_DEV_VERIFY (sample_header false)) = false ->
          blkid_get_dev (sample_header false) sample_externals cache1 other
            flags'
          = (fst (blkid_get_dev (sample_header false) sample_externals
                    (cache_of [sda_dev 0]) other flags'), cache1))
    /\ (forall flags',
          flag_set flags' (BLKID_DEV_VERIFY (sample_header false)) = false ->
          blkid_get_dev (sample_header false) sample_externals cache1
            "/dev/md0" flags'
          = (Some (List.length (bic_devs (cache_of [sda_dev 0]))), cache1))
    /\ Z.land (bic_flags cache1)
         (BLKID_BIC_FL_CHANGED (sample_header false))
       = BLKID_BIC_FL_CHANGED (sample_header false).
Proof.
  apply (get_dev_create_keeps_others (sample_header false) sample_externals
           sample_externals (cache_of [sda_dev 0]) "/dev/md0" 1).
  - reflexivity.
  - reflexivity.
  - discriminate.
  - simpl. intros [E | []]. discriminate E.
Defined.

(** ** The device-mapper prober *)

Section DeviceMapper.

Variable H : blkid_header.
Variable X : externals.
Variable W : world.

Lemma dm_leaf_fold (p : dm_device -> bool) (names : list dm_device) :
  forall ret,
  fold_left (fun ret d => if p d then false else ret) names ret
  = ret && negb (existsb p names).
Proof.
  induction names as [|d names IH]; intros ret; simpl.
  - now rewrite andb_true_r.
  - rewrite IH. destruct (p d), ret; reflexivity.
Qed.

Lemma dm_device_has_dep_iff dev name :
  dm_device_has_dep W dev name = true
  <-> dm_task_create W = true
      /\ exists d deps,
           dm_lookup W name = Some d /\ dm_exists d = true
           /\ dm_deps d = Some deps /\ In dev deps.
Proof.
  unfold dm_device_has_dep.
  destruct (dm_task_create W); simpl.
  2: { split; [discriminate | intros [E _]; discriminate E]. }
  destruct (dm_lookup W name) as [d|].
  2: { split; [discriminate | intros (_ & d & deps & E & _); discriminate E]. }
  destruct (dm_exists d) eqn:Ex; simpl.
  2: { split; [discriminate|].
       intros (_ & d' & deps & [= <-] & E & _). congruence. }
  destruct (dm_deps d) as [[|dep deps]|] eqn:D.
  - split; [discriminate|].
    intros (_ & d' & deps & [= <-] & _ & E & I). rewrite D in E.
    injection E as <-. destruct I.
  - rewrite existsb_exists. split.
    + intros (x & I & E). apply Z.eqb_eq in E. subst x.
      split; [reflexivity|]. exists d, (dep :: deps). auto.
    + intros (_ & d' & deps' & [= <-] & _ & E & I). rewrite D in E.
      injection E as <-. exists dev. split; [exact I | apply Z.eqb_refl].
  - split; [discriminate|].
    intros (_ & d' & deps & [= <-] & _ & E & _). congruence.
Qed.

(** X3. A device number is no leaf exactly when device-mapper tasks can be
    created and, for some device of the device list, the device known
    under that name exists and has the number among its dependencies.
    In particular everything is a leaf when no task can be created or the
    list is empty. *)
Theorem dm_device_is_leaf_false_iff dev :
  dm_device_is_leaf W dev = false
  <-> dm_task_create W = true
      /\ exists d d' deps,
           In d (dm_names W)
           /\ dm_lookup W (dm_name d) = Some d' /\ dm_exists d' = true
           /\ dm_deps d' = Some deps /\ In dev deps.
Proof.
  unfold dm_device_is_leaf.
  destruct (dm_task_create W) eqn:T; cbv beta iota delta [negb].
  2: { split; [discriminate | intros [E _]; discriminate E]. }
  destruct (dm_names W) as [|d0 names] eqn:N.
  { split; [discriminate | intros (_ & d & d' & deps & I & _); destruct I]. }
  rewrite dm_leaf_fold. cbn [andb].
  rewrite negb_false_iff, existsb_exists. split.
  - intros (d & I & D). apply dm_device_has_dep_iff in D.
    destruct D as (_ & d' & deps & R). split; [reflexivity|].
    exists d, d', deps. tauto.
  - intros (_ & d & d' & deps & I & R). exists d. split; [exact I|].
    apply dm_device_has_dep_iff. rewrite T. split; [reflexivity|].
    exists d', deps. exact R.
Qed.

Lemma probes_of_flat_map {A : Type} (g g' : A -> list event) (l : list A) :
  (forall a, probes_of (g a) = g' a) ->
  probes_of (flat_map g l) = flat_map g' l.
Proof.
  intros G. induction l as [|a l IH]; [reflexivity|].
  simpl. now rewrite probes_of_app, G, IH.
Qed.

(** X4. The calls of [probe_one] that [dm_probe_all] adds to those made
    before are exactly these, in the order of the device list: one for
    each entry of the list whose device number is not zero and is a leaf,
    under the name "mapper/" followed by the entry's name, with the
    device-mapper priority and the caller's [only_if_new]; none for an
    entry whose device is missing, so that its number is zero, nor for a
    device another one is built on; and none at all when no task can be
    created. *)
Theorem dm_probe_all_probes_leaves only_if_new st :
  probes_of (st_trace (dm_probe_all H X W only_if_new st))
  = probes_of (st_trace st)
    ++ (if dm_task_create W
        then
          flat_map
            (fun d =>
               let devno := dm_get_devno H W (dm_name d) in
               if negb (devno =? 0) && dm_device_is_leaf W devno
               then [EvProbeOne ("mapper/" ++ dm_name d) devno
                       (BLKID_PRI_DM H) only_if_new]
               else [])
            (dm_names W)
        else []).
Proof.
  rewrite <- (probes_without_leaf_queries
                (st_trace (dm_probe_all H X W only_if_new st))).
  rewrite dm_probe_all_events, probes_of_app, probes_without_leaf_queries.
  f_equal. unfold dm_events.
  change (probes_of (EvDmList :: ?l)) with (probes_of l).
  destruct (dm_task_create W); [|reflexivity].
  cbv beta iota delta [negb]. apply probes_of_flat_map. intros d.
  unfold dm_entry_events. cbv zeta.
  destruct (dm_get_devno H W (dm_name d) =? 0); [reflexivity|].
  destruct (dm_device_is_leaf W (dm_get_devno H W (dm_name d)));
    reflexivity.
Qed.

End DeviceMapper.

(** Of the three entries of the device list, the snapshot alone is
    probed: vg0-lv0 carries the snapshot and vg0-old is missing. *)
Lemma dm_probe_all_probes_leaves_witness :
  probes_of
    (st_trace (dm_probe_all (sample_header true) sample_externals
                 mapper_world true
                 {| st_cache := empty_cache;
                    st_trace := [EvReadCache;
                                 EvProbeOne "sda" 2048 0 true] |}))
  = [EvProbeOne "sda" 2048 0 true;
     EvProbeOne "mapper/vg0-snap" 64769 40 true].
Proof.
  exact (dm_probe_all_probes_leaves (sample_header true) sample_externals
           mapper_world true
           {| st_cache := empty_cache;
              st_trace := [EvReadCache; EvProbeOne "sda" 2048 0 true] |}).
Defined.

(** ** The LVM prober *)

Section Lvm.

Variable H : blkid_header.
Variable X : externals.
Variable W : world.

Lemma lvm_scan_lines_none (pre : list string) :
  (forall buf, In buf pre -> fst (sscanf buf fmt_lvm) <> 2) ->
  forall rest, lvm_scan_lines H (pre ++ rest) = lvm_scan_lines H rest.
Proof.
  induction pre as [|buf pre IH]; intros N rest; [reflexivity|].
  simpl. pose proof (N buf (or_introl eq_refl)) as B.
  destruct (sscanf buf fmt_lvm) as [n vs]. simpl in B.
  apply Z.eqb_neq in B. rewrite B. apply IH.
  intros b I. apply N. now right.
Qed.

(** X5. [lvm_get_devno] returns the device number of the first line of the
    file on which "device: %d:%d" converts both numbers, whatever follows
    that line; the lines before it, on which the pattern fails, count for
    nothing, and a file of such lines only gives zero. *)
Theorem lvm_get_devno_first_match lvm_device content pre line post ma mi :
  fopen W lvm_device = Some content ->
  fgets_all 1024 content = pre ++ line :: post ->
  (forall buf, In buf pre -> fst (sscanf buf fmt_lvm) <> 2) ->
  sscanf line fmt_lvm = (2, [VInt ma; VInt mi]) ->
  lvm_get_devno H W lvm_device = makedev H ma mi
  /\ lvm_scan_lines H pre = 0.
Proof.
  intros F G N R. unfold lvm_get_devno. rewrite F, G. split.
  - rewrite (lvm_scan_lines_none pre N). simpl. now rewrite R.
  - rewrite <- (app_nil_r pre). now rewrite (lvm_scan_lines_none pre N).
Qed.

(** X6. The calls of [probe_one] that [lvm_probe_all] adds to those made
    before are exactly these, in the order of the directories: one for
    each entry, other than "." and "..", of the LVs directory of each
    entry, other than "." and "..", of /proc/lvm/VGs that has such a
    directory, under the name group/volume, with the device number read
    from the volume's file, the LVM priority and the caller's
    [only_if_new]. Without /proc/lvm/VGs there is none. *)
Theorem lvm_probe_all_probes_volumes only_if_new st :
  probes_of (st_trace (lvm_probe_all H X W only_if_new st))
  = probes_of (st_trace st)
    ++ match opendir W VG_DIR with
       | None => []
       | Some vg_list =>
           flat_map
             (fun vg_name =>
                if is_dot_or_dotdot vg_name then []
                else
                  match
                    opendir W (VG_DIR ++ "/" ++ vg_name ++ "/LVs")%string
                  with
                  | None => []
                  | Some lv_list =>
                      flat_map
                        (fun lv_name =>
                           if is_dot_or_dotdot lv_name then []
                           else
                             [EvProbeOne (vg_name ++ "/" ++ lv_name)
                                (lvm_get_devno H W
                                   (VG_DIR ++ "/" ++ vg_name ++ "/LVs/"
                                    ++ lv_name)%string)
                                (BLKID_PRI_LVM H) only_if_new])
                        lv_list
                  end)
             vg_list
       end.
Proof.
  rewrite <- (probes_without_leaf_queries
                (st_trace (lvm_probe_all H X W only_if_new st))).
  rewrite lvm_probe_all_events, probes_of_app, probes_without_leaf_queries.
  f_equal. unfold lvm_events.
  change (probes_of (EvOpendir VG_DIR :: ?l)) with (probes_of l).
  destruct (opendir W VG_DIR) as [vg_list|]; [|reflexivity].
  apply probes_of_flat_map. intros vg_name. unfold lvm_vg_events.
  destruct (is_dot_or_dotdot vg_name); [reflexivity|]. cbv zeta.
  change (probes_of (EvOpendir ?p :: ?l)) with (probes_of l).
  destruct (opendir W (VG_DIR ++ "/" ++ vg_name ++ "/LVs")%string)
    as [lv_list|]; [|reflexivity].
  apply probes_of_flat_map. intros lv_name. unfold lvm_lv_events.
  destruct (is_dot_or_dotdot lv_name); reflexivity.
Qed.

End Lvm.

(** A volume file with two lines before its "device:" line and one after
    it. *)
Lemma lvm_get_devno_first_match_witness :
  lvm_get_devno (sample_header false)
    (sample_world
       [("/proc/lvm/VGs/vg0/LVs/lv0",
         "name:         /dev/vg0/lv0" ++ nl
         ++ "size:         204800" ++ nl
         ++ "device:       58:3" ++ nl
         ++ "device:       58:4" ++ nl)%string] [])
    "/proc/lvm/VGs/vg0/LVs/lv0"
  = makedev (sample_header false) 58 3
  /\ lvm_scan_lines (sample_header false)
       ["name:         /dev/vg0/lv0" ++ nl;
        "size:         204800" ++ nl]%string = 0.
Proof.
  apply (lvm_get_devno_first_match (sample_header false)
           (sample_world
              [("/proc/lvm/VGs/vg0/LVs/lv0",
                "name:         /dev/vg0/lv0" ++ nl
                ++ "size:         204800" ++ nl
                ++ "device:       58:3" ++ nl
                ++ "device:       58:4" ++ nl)%string] [])
           "/proc/lvm/VGs/vg0/LVs/lv0"
           ("name:         /dev/vg0/lv0" ++ nl
            ++ "size:         204800" ++ nl
            ++ "device:       58:3" ++ nl
            ++ "device:       58:4" ++ nl)%string
           ["name:         /dev/vg0/lv0" ++ nl;
            "size:         204800" ++ nl]%string
           ("device:       58:3" ++ nl)%string
           ["device:       58:4" ++ nl]%string 58 3).
  - reflexivity.
  - reflexivity.
  - intros buf [<- | [<- | []]]; vm_compute; discriminate.
  - reflexivity.
Defined.

(** The two volumes of vg0 are probed, in directory order, lv1 with the
    device number zero; nothing is probed for vg1. *)
Lemma lvm_probe_all_probes_volumes_witness :
  probes_of
    (st_trace (lvm_probe_all (sample_header false) sample_externals
                 volumes_world false
                 {| st_cache := empty_cache;
                    st_trace := [EvReadCache;
                                 EvProbeOne "evms/a" 30208 30 false] |}))
  = [EvProbeOne "evms/a" 30208 30 false;
     EvProbeOne "vg0/lv0" 14848 20 false;
     EvProbeOne "vg0/lv1" 0 20 false].
Proof.
  exact (lvm_probe_all_probes_volumes (sample_header false)
           sample_externals volumes_world false
           {| st_cache := empty_cache;
              st_trace := [EvReadCache;
                           EvProbeOne "evms/a" 30208 30 false] |}).
Defined.

(** ** The EVMS prober *)

Section EvmsCount.

Variable H : blkid_header.
Variable X : externals.
Variable W : world.

Lemma evms_line_events_probes only_if_new line :
  probes_of (evms_line_events H only_if_new line)
  = evms_line_events H only_if_new line.
Proof.
  unfold evms_line_events. destruct (sscanf line fmt_evms) as [n vs].
  destruct (negb (n =? 4)); [reflexivity|].
  destruct vs as [|[ma|] [|[mi|] [|[sz|] [|[|device] [|]]]]]; reflexivity.
Qed.

Lemma evms_fold_count only_if_new lines :
  forall acc,
  fst (fold_left (evms_line H X W only_if_new) lines acc)
  = fst acc
    + Z.of_nat
        (List.length (flat_map (evms_line_events H only_if_new) lines)).
Proof.
  induction lines as [|line lines IH]; intros acc; simpl; [lia|].
  rewrite IH.
  destruct (evms_line_events_added H X W only_if_new acc line) as [_ E].
  rewrite E, length_app. lia.
Qed.

Lemma flat_map_probes {A : Type} (g : A -> list event) (l : list A) :
  (forall a, probes_of (g a) = g a) ->
  probes_of (flat_map g l) = flat_map g l.
Proof.
  intros G. induction l as [|a l IH]; [reflexivity|].
  simpl. now rewrite probes_of_app, G, IH.
Qed.

(** X7. The number [evms_probe_all] returns is the number of calls of
    [probe_one] it made: one for each line of the report on which the
    pattern converts all four fields, and zero when the report cannot be
    opened. *)
Theorem evms_probe_all_counts_probes only_if_new st :
  Z.of_nat
    (List.length
       (probes_of (st_trace (snd (evms_probe_all H X W only_if_new st)))))
  = Z.of_nat (List.length (probes_of (st_trace st)))
    + fst (evms_probe_all H X W only_if_new st)
  /\ (fopen W PROC_EVMS_VOLUMES = None ->
      fst (evms_probe_all H X W only_if_new st) = 0).
Proof.
  split.
  - rewrite <- (probes_without_leaf_queries (st_trace (snd _))).
    rewrite evms_probe_all_events, probes_of_app,
      probes_without_leaf_queries, length_app.
    unfold evms_probe_all, evms_events.
    destruct (fopen W PROC_EVMS_VOLUMES) as [content|]; simpl; [|lia].
    rewrite evms_fold_count. simpl fst.
    rewrite (flat_map_probes _ _ (evms_line_events_probes only_if_new)).
    lia.
  - intros F. unfold evms_probe_all. now rewrite F.
Qed.

End EvmsCount.

(** ** The partition-table prober: disks and their partitions *)

Lemma scan_format_names (fmt : list directive) :
  forall s vs conv f,
  scan_format fmt s = (vs, conv, f) ->
  forall t, In (VStr t) vs -> t <> "".
Proof.
  induction fmt as [|d fmt IH]; intros s vs conv f; simpl.
  - intros [= <- _ _] t [].
  - destruct (scan_directive d s) as [v rest|fl] eqn:D.
    + destruct (scan_format fmt rest) as [[vs' conv'] f'] eqn:R.
      intros [= <- _ _] t I.
      assert (V : v = Some (VStr t) \/ In (VStr t) vs').
      { destruct v as [x|]; [destruct I as [-> | I]|]; auto. }
      destruct V as [-> | V]; [|exact (IH _ _ _ _ R t V)].
      destruct d; simpl in D;
        repeat match type of D with
               | match ?e with _ => _ end = _ => destruct e eqn:?
               | (if ?b then _ else _) = _ => destruct b
               end; try discriminate.
      injection D as <- _. discriminate.
    + intros [= <- _ _] t [].
Qed.

Lemma reads_as_name_length line p :
  reads_as line p -> strlen (pt_name p) <> 0%nat.
Proof.
  destruct p as [[[ma mi] sz] name]. unfold reads_as, sscanf, pt_name.
  cbn [snd].
  destruct (scan_format fmt_partitions line) as [[vs conv] f] eqn:R.
  intros E.
  assert (V : vs = [VInt ma; VInt mi; VInt sz; VStr name]).
  { destruct f as [[|]|], conv; injection E; auto. }
  subst vs.
  assert (N : name <> "").
  { apply (scan_format_names _ _ _ _ _ R). simpl. auto. }
  destruct name; [congruence | discriminate].
Qed.

Lemma strncmp_prefix (a b : string) :
  strncmp_is_zero a b (strlen a) = String.prefix a b.
Proof.
  unfold strncmp_is_zero, strlen. revert b.
  induction a as [|c a IH]; intros b; simpl.
  - now destruct b.
  - destruct b as [|c' b]; simpl; [reflexivity|].
    rewrite <- IH.
    destruct (Ascii.ascii_dec c c') as [-> | N].
    + now rewrite Ascii.eqb_refl.
    + apply Ascii.eqb_neq in N. now rewrite N.
Qed.

Section Disks.

Variable H : blkid_header.
Variable X : externals.
Variable W : world.
Variable only_if_new : bool.

Lemma probe_partitions_probes lines st :
  probes_of (st_trace (probe_partitions H X W only_if_new lines st))
  = probes_of (st_trace st)
    ++ probes_of (pt_events_from H only_if_new pt_init lines).
Proof.
  rewrite <- (probes_without_leaf_queries
                (st_trace (probe_partitions _ _ _ _ _ _))).
  rewrite probe_partitions_events, probes_of_app.
  now rewrite probes_without_leaf_queries.
Qed.

(** The turn of a line that reads as a partition: the call for it when its
    size is above 1, and no pending candidate left. *)
Lemma pt_step_partition l line p :
  reads_as line p -> ends_in_digit (pt_name p) = true ->
  snd (pt_step H only_if_new l line)
  = (if 1 <? pt_size p then [pt_call H only_if_new p] else [])
  /\ lens (fst (pt_step H only_if_new l line)) = (0, 0)%nat
  /\ which (fst (pt_step H only_if_new l line)) = negb (which l).
Proof.
  destruct p as [[[ma mi] sz] name]. unfold reads_as, pt_name, pt_size.
  simpl. intros R D. unfold pt_step. rewrite R. simpl. rewrite D.
  simpl. rewrite aget_aset_same.
  repeat split. now destruct (which l).
Qed.

(** The turn of a line that reads as a disk. *)
Lemma pt_step_disk l line p :
  reads_as line p -> ends_in_digit (pt_name p) = false ->
  let last := which l in
  let pending :=
    negb (Nat.eqb (aget (lens l) last) 0)
    && negb (strncmp_is_zero (aget (ptnames l) last) (pt_name p)
               (aget (lens l) last)) in
  snd (pt_step H only_if_new l line)
  = (if pending
     then [EvProbeOne (aget (ptnames l) last) (aget (devs l) last) 0
             only_if_new]
     else [])
  /\ fst (pt_step H only_if_new l line)
     = {| which := negb last;
          ptnames := aset (ptnames l) (negb last) (pt_name p);
          devs := aset (devs l) (negb last)
                    (makedev H (fst (fst (fst p))) (snd (fst (fst p))));
          lens :=
            if pending
            then aset (aset (lens l) (negb last) (strlen (pt_name p)))
                   last 0%nat
            else aset (lens l) (negb last) (strlen (pt_name p)) |}.
Proof.
  destruct p as [[[ma mi] sz] name]. unfold reads_as, pt_name. simpl.
  intros R D. unfold pt_step. rewrite R. simpl. rewrite D.
  rewrite !aget_aset_other.
  destruct (negb (Nat.eqb (aget (lens l) (which l)) 0)
            && negb (strncmp_is_zero (aget (ptnames l) (which l)) name
                       (aget (lens l) (which l)))); auto.
Qed.

Lemma pt_calls_probes (parts : list pt_entry) :
  probes_of (map (pt_call H only_if_new) parts)
  = map (pt_call H only_if_new) parts.
Proof.
  induction parts as [|[[[ma mi] sz] name] parts IH]; [reflexivity|].
  simpl. now rewrite IH.
Qed.

Lemma pt_events_partitions plines :
  forall parts l,
  Forall2 reads_as plines parts ->
  Forall (fun p => ends_in_digit (pt_name p) = true) parts ->
  (plines = [] -> lens l = (0, 0)%nat) ->
  pt_events_from H only_if_new l plines
  = map (pt_call H only_if_new) (filter (fun p => 1 <? pt_size p) parts).
Proof.
  induction plines as [|line plines IH]; intros parts l R D Z0.
  - inversion R; subst. simpl. unfold pt_last.
    rewrite (Z0 eq_refl). now destruct (which l).
  - inversion R as [|? p ? parts' Rp R']; subst.
    inversion D as [|? ? Dp D']; subst.
    cbn [pt_events_from].
    destruct (pt_step_partition l line p Rp Dp) as (E & L & _).
    rewrite E, (IH parts' _ R' D' (fun _ => L)). simpl.
    now destruct (1 <? pt_size p).
Qed.

(** X8. A report made of one disk line followed by lines of partitions:
    when there are partitions, the calls of [probe_one] are those for the
    partitions of a size above 1, in the order of the report, and the disk
    is not probed; a disk alone is probed. *)
Theorem disk_then_partitions dline d plines parts st :
  reads_as dline d ->
  ends_in_digit (pt_name d) = false ->
  Forall2 reads_as plines parts ->
  Forall (fun p => ends_in_digit (pt_name p) = true) parts ->
  probes_of
    (st_trace (probe_partitions H X W only_if_new (dline :: plines) st))
  = probes_of (st_trace st)
    ++ match parts with
       | [] => [pt_call H only_if_new d]
       | _ =>
           map (pt_call H only_if_new)
             (filter (fun p => 1 <? pt_size p) parts)
       end.
Proof.
  intros Rd Dd R D. rewrite probe_partitions_probes. f_equal.
  cbn [pt_events_from].
  destruct (pt_step_disk pt_init dline d Rd Dd) as [E1 E2].
  rewrite E1, E2. simpl.
  destruct plines as [|line plines].
  - inversion R; subst. simpl. unfold pt_last. simpl.
    pose proof (reads_as_name_length dline d Rd) as N.
    apply Nat.eqb_neq in N. rewrite N. simpl.
    destruct d as [[[ma mi] sz] name]. reflexivity.
  - rewrite (pt_events_partitions (line :: plines) parts _ R D)
      by discriminate.
    inversion R; subst.
    apply pt_calls_probes.
Qed.

End Disks.

Section Heuristic.

Variable H : blkid_header.
Variable X : externals.
Variable W : world.
Variable only_if_new : bool.

Lemma pt_step_skip l line :
  fst (sscanf line fmt_partitions) <> 4 ->
  pt_step H only_if_new l line
  = ({| which := negb (which l); ptnames := ptnames l; devs := devs l;
        lens := lens l |}, []).
Proof.
  intros N. unfold pt_step.
  destruct (sscanf line fmt_partitions) as [n vs]. simpl in N.
  apply Z.eqb_neq in N. now rewrite N.
Qed.

(** X9. A report of two disk lines, with names that fit the name buffers:
    the second disk is probed at the end; the first is probed, when the
    second is read, unless its name is a prefix of the second name, in
    which case it is dropped. *)
Theorem two_disks_prefix_rule la a lb b st :
  reads_as la a -> ends_in_digit (pt_name a) = false ->
  name_fits (pt_name a) ->
  reads_as lb b -> ends_in_digit (pt_name b) = false ->
  name_fits (pt_name b) ->
  probes_of (st_trace (probe_partitions H X W only_if_new [la; lb] st))
  = probes_of (st_trace st)
    ++ (if String.prefix (pt_name a) (pt_name b)
        then [pt_call H only_if_new b]
        else [pt_call H only_if_new a; pt_call H only_if_new b]).
Proof.
  intros Ra Da _ Rb Db _. rewrite (probe_partitions_probes H X W). f_equal.
  cbn [pt_events_from].
  destruct (pt_step_disk H only_if_new pt_init la a Ra Da) as [E1 E2].
  rewrite E1, E2. clear E1 E2. cbn [pt_init which lens aget fst snd negb
    Nat.eqb andb app].
  match goal with
  | |- context [pt_step H only_if_new ?l lb] =>
      destruct (pt_step_disk H only_if_new l lb b Rb Db) as [E1 E2]
  end.
  rewrite E1, E2. clear E1 E2. unfold pt_last.
  cbn [which lens ptnames devs aget aset fst snd negb].
  pose proof (reads_as_name_length la a Ra) as Na.
  pose proof (reads_as_name_length lb b Rb) as Nb.
  apply Nat.eqb_neq in Na, Nb. rewrite Na, strncmp_prefix.
  destruct a as [[[ma mi] sz] na], b as [[[mb mib] szb] nb].
  unfold pt_name in *. cbn [snd fst] in *.
  destruct (String.prefix na nb); cbn [negb andb aget aset fst snd];
    rewrite Nb; reflexivity.
Qed.

(** X11. A line that [sscanf] does not read, between a disk line and the
    next line of the report, makes the disk go unprobed: the line after it
    is stored over the pending disk. Only the last line is called for (if
    it is a disk, or a partition of a size above 1). *)
Theorem disk_lost_after_unread_line la a lg lb b st :
  reads_as la a -> ends_in_digit (pt_name a) = false ->
  fst (sscanf lg fmt_partitions) <> 4 ->
  reads_as lb b ->
  probes_of (st_trace (probe_partitions H X W only_if_new [la; lg; lb] st))
  = probes_of (st_trace st)
    ++ (if ends_in_digit (pt_name b) && negb (1 <? pt_size b) then []
        else [pt_call H only_if_new b]).
Proof.
  intros Ra Da Ng Rb. rewrite (probe_partitions_probes H X W). f_equal.
  cbn [pt_events_from].
  destruct (pt_step_disk H only_if_new pt_init la a Ra Da) as [E1 E2].
  rewrite E1, E2. clear E1 E2. cbn [pt_init which lens aget fst snd negb
    Nat.eqb andb app].
  rewrite (pt_step_skip _ lg Ng). cbn [fst snd app which negb].
  destruct (ends_in_digit (pt_name b)) eqn:Db.
  - match goal with
    | |- context [pt_step H only_if_new ?l lb] =>
        destruct (pt_step_partition H only_if_new l lb b Rb Db)
          as (E1 & E2 & E3)
    end.
    rewrite E1. unfold pt_last. rewrite E2.
    destruct (which _), (1 <? pt_size b);
      destruct b as [[[mb mib] szb] nb]; reflexivity.
  - match goal with
    | |- context [pt_step H only_if_new ?l lb] =>
        destruct (pt_step_disk H only_if_new l lb b Rb Db) as [E1 E2]
    end.
    rewrite E1, E2. clear E1 E2. unfold pt_last.
    cbn [which lens ptnames devs aget aset fst snd negb Nat.eqb andb app].
    pose proof (reads_as_name_length lb b Rb) as Nb.
    apply Nat.eqb_neq in Nb. rewrite Nb.
    destruct b as [[[mb mib] szb] nb]. reflexivity.
Qed.

Lemma call_of_line_weaken lines lines' e :
  (forall x, In x lines -> In x lines') ->
  call_of_line H only_if_new lines e -> call_of_line H only_if_new lines' e.
Proof.
  intros S (line & p & I & R). exists line, p. split; [auto | exact R].
Qed.

Lemma slot_of_line_weaken seen seen' l i :
  (forall x, In x seen -> In x seen') ->
  slot_of_line H seen l i -> slot_of_line H seen' l i.
Proof.
  intros S B L. destruct (B L) as (line & p & I & R).
  exists line, p. split; [auto | exact R].
Qed.

Lemma pt_step_calls seen l line :
  (forall i, slot_of_line H seen l i) ->
  (forall i, slot_of_line H (seen ++ [line])
               (fst (pt_step H only_if_new l line)) i)
  /\ forall e, In e (snd (pt_step H only_if_new l line)) ->
               call_of_line H only_if_new (seen ++ [line]) e.
Proof.
  intros B.
  assert (S : forall x, In x seen -> In x (seen ++ [line]))
    by (intros x I; apply in_or_app; now left).
  assert (Here : In line (seen ++ [line]))
    by (apply in_or_app; right; now left).
  assert (B' : forall i, slot_of_line H (seen ++ [line]) l i)
    by (intros i; apply (slot_of_line_weaken seen); auto).
  unfold pt_step.
  destruct (sscanf line fmt_partitions) as [n vs] eqn:R.
  destruct (n =? 4) eqn:N; simpl;
    [|split; [intros i; apply (B' i) | intros e []]].
  apply Z.eqb_eq in N. subst n.
  destruct vs as [|[ma|] [|[mi|] [|[sz|] [|[|ptname] [|]]]]];
    try (split; [intros i; apply (B' i) | intros e []]).
  assert (Rp : reads_as line (ma, mi, sz, ptname)) by exact R.
  destruct (ends_in_digit ptname) eqn:D; simpl.
  - split.
    + intros i L. exfalso. apply L. now destruct (which l), i.
    + intros e. destruct (1 <? sz) eqn:S1; [|intros []].
      intros [<- | []]. rewrite aget_aset_same.
      exists line, (ma, mi, sz, ptname). repeat split; auto.
      intros _. now apply Z.ltb_lt.
  - rewrite !aget_aset_other.
    assert (New : forall ls,
              aget ls (negb (which l)) = strlen ptname ->
              slot_of_line H (seen ++ [line])
                {| which := negb (which l);
                   ptnames := aset (ptnames l) (negb (which l)) ptname;
                   devs := aset (devs l) (negb (which l)) (makedev H ma mi);
                   lens := ls |} (negb (which l))).
    { intros ls _ _. exists line, (ma, mi, sz, ptname). simpl.
      rewrite !aget_aset_same. auto. }
    assert (Old : forall ls,
              (aget ls (which l) <> 0%nat ->
               aget (lens l) (which l) <> 0%nat) ->
              slot_of_line H (seen ++ [line])
                {| which := negb (which l);
                   ptnames := aset (ptnames l) (negb (which l)) ptname;
                   devs := aset (devs l) (negb (which l)) (makedev H ma mi);
                   lens := ls |} (which l)).
    { intros ls K L. simpl in *. rewrite !aget_aset_other.
      apply (B' (which l)). now apply K. }
    assert (Both : forall ls,
              aget ls (negb (which l)) = strlen ptname ->
              (aget ls (which l) <> 0%nat ->
               aget (lens l) (which l) <> 0%nat) ->
              forall i,
              slot_of_line H (seen ++ [line])
                {| which := negb (which l);
                   ptnames := aset (ptnames l) (negb (which l)) ptname;
                   devs := aset (devs l) (negb (which l)) (makedev H ma mi);
                   lens := ls |} i).
    { intros ls K1 K2 i.
      destruct (Bool.bool_dec i (which l)) as [-> | Ni].
      - now apply Old.
      - replace i with (negb (which l))
          by (destruct i, (which l) eqn:?; simpl; congruence).
        now apply New. }
    destruct (negb (Nat.eqb (aget (lens l) (which l)) 0)) eqn:L; simpl.
    + destruct (negb (strncmp_is_zero _ _ _)); simpl.
      * split.
        -- apply Both.
           ++ rewrite <- (aget_aset_same (lens l) (negb (which l))
                            (strlen ptname)) at 2.
              now destruct (which l).
           ++ intros K. exfalso. apply K. now destruct (which l).
        -- intros e [<- | []].
           apply negb_true_iff, Nat.eqb_neq in L.
           destruct (B' (which l) L) as (ln & p & I & Rl & Dl & En & Ed).
           exists ln, p. split; [exact I|]. split; [exact Rl|].
           rewrite En, Ed. destruct p as [[[pa pi] ps] pn]. simpl.
           split; [reflexivity|]. unfold pt_name in Dl. simpl in Dl.
           unfold pt_name. simpl. congruence.
      * split; [|intros e []]. apply Both.
        -- apply aget_aset_same.
        -- now rewrite aget_aset_other.
    + split; [|intros e []]. apply Both.
      * apply aget_aset_same.
      * now rewrite aget_aset_other.
Qed.

Lemma pt_events_calls lines :
  forall seen l,
  (forall i, slot_of_line H seen l i) ->
  forall e, In e (pt_events_from H only_if_new l lines) ->
            call_of_line H only_if_new (seen ++ lines) e.
Proof.
  induction lines as [|line lines IH]; intros seen l B e; simpl.
  - unfold pt_last.
    destruct (negb (Nat.eqb (aget (lens l) (which l)) 0)) eqn:L;
      [|intros []].
    intros [<- | []]. apply negb_true_iff, Nat.eqb_neq in L.
    destruct (B (which l) L) as (ln & p & I & Rl & Dl & En & Ed).
    exists ln, p. split; [apply in_or_app; now left|].
    split; [exact Rl|]. rewrite En, Ed.
    destruct p as [[[pa pi] ps] pn]. simpl. split; [reflexivity|].
    unfold pt_name in *. simpl in *. congruence.
  - destruct (pt_step_calls seen l line B) as [B1 C1].
    rewrite in_app_iff. intros [I | I].
    + apply (call_of_line_weaken (seen ++ [line])); [|now apply C1].
      intros x Ix. apply in_app_or in Ix. apply in_or_app.
      destruct Ix as [Ix | [<- | []]]; [now left | right; now left].
    + replace (seen ++ line :: lines) with ((seen ++ [line]) ++ lines)
        by (now rewrite <- app_assoc).
      now apply (IH _ _ B1).
Qed.

(** X10. On a report whose names all fit the name buffers, every call of
    [probe_one] the partition-table prober makes is the call for a line of
    the report: it carries the name of that line, the device number made
    of its major and minor numbers, priority zero and the caller's
    [only_if_new]; and a line whose name ends in a digit is only called
    for when its size is above 1. Nothing is probed that the report does
    not list. *)
Theorem partition_probes_come_from_lines lines st name devno pri o :
  (forall line ma mi sz nm,
     In line lines ->
     sscanf line fmt_partitions = (4, [VInt ma; VInt mi; VInt sz; VStr nm]) ->
     name_fits nm) ->
  ~ In (EvProbeOne name devno pri o) (st_trace st) ->
  In (EvProbeOne name devno pri o)
     (st_trace (probe_partitions H X W only_if_new lines st)) ->
  exists line ma mi sz,
    In line lines
    /\ sscanf line fmt_partitions
       = (4, [VInt ma; VInt mi; VInt sz; VStr name])
    /\ devno = makedev H ma mi /\ pri = 0 /\ o = only_if_new
    /\ (ends_in_digit name = true -> 1 < sz).
Proof.
  intros _ N I.
  apply (in_trace_added _ _ _ _
           (probe_partitions_events H X W only_if_new lines st)) in I;
    [|reflexivity].
  destruct I as [I | I]; [contradiction|].
  assert (B : forall i, slot_of_line H [] pt_init i)
    by (intros [|] L; now contradiction L).
  destruct (pt_events_calls lines [] pt_init B _ I)
    as (line & [[[ma mi] sz] nm] & Il & R & E & D).
  injection E as -> -> -> ->.
  exists line, ma, mi, sz. auto 10.
Qed.

End Heuristic.

(** A disk with a first partition, an extended partition and a logical
    partition. *)
Lemma disk_then_partitions_witness :
  probes_of
    (st_trace
       (probe_partitions (sample_header false) sample_externals
          (sample_world [] []) false
          ["8 0 1000 sda" ++ nl; "8 1 500 sda1" ++ nl; "8 2 1 sda2" ++ nl;
           "8 5 300 sda5" ++ nl]%string
          (start empty_cache)))
  = probes_of (st_trace (start empty_cache))
    ++ map (pt_call (sample_header false) false)
         (filter (fun p => 1 <? pt_size p)
            [(8, 1, 500, "sda1"); (8, 2, 1, "sda2"); (8, 5, 300, "sda5")]).
Proof.
  apply (disk_then_partitions (sample_header false) sample_externals
           (sample_world [] []) false
           ("8 0 1000 sda" ++ nl)%string (8, 0, 1000, "sda")
           ["8 1 500 sda1" ++ nl; "8 2 1 sda2" ++ nl;
            "8 5 300 sda5" ++ nl]%string
           [(8, 1, 500, "sda1"); (8, 2, 1, "sda2"); (8, 5, 300, "sda5")]
           (start empty_cache)).
  - reflexivity.
  - reflexivity.
  - repeat constructor.
  - repeat constructor.
Defined.

(** The disks sda and sdaa on two successive lines, and the disks sdb
    and sdc: sda is dropped, sdb is probed. *)
Lemma two_disks_prefix_rule_witness :
  probes_of
    (st_trace
       (probe_partitions (sample_header false) sample_externals
          (sample_world [] []) false
          ["8 0 2000 sda" ++ nl; "65 160 2000 sdaa" ++ nl]%string
          (start empty_cache)))
  = [EvProbeOne "sdaa" 16800 0 false]
  /\ probes_of
       (st_trace
          (probe_partitions (sample_header false) sample_externals
             (sample_world [] []) false
             ["8 16 2000 sdb" ++ nl; "8 32 2000 sdc" ++ nl]%string
             (start empty_cache)))
     = [EvProbeOne "sdb" 2064 0 false; EvProbeOne "sdc" 2080 0 false].
Proof.
  split.
  - apply (two_disks_prefix_rule (sample_header false) sample_externals
             (sample_world [] []) false
             ("8 0 2000 sda" ++ nl)%string (8, 0, 2000, "sda")
             ("65 160 2000 sdaa" ++ nl)%string (65, 160, 2000, "sdaa")
             (start empty_cache));
      try reflexivity; unfold name_fits; simpl; lia.
  - apply (two_disks_prefix_rule (sample_header false) sample_externals
             (sample_world [] []) false
             ("8 16 2000 sdb" ++ nl)%string (8, 16, 2000, "sdb")
             ("8 32 2000 sdc" ++ nl)%string (8, 32, 2000, "sdc")
             (start empty_cache));
      try reflexivity; unfold name_fits; simpl; lia.
Defined.

(** The header of /proc/partitions is followed by a blank line; here a
    single unread line stands between two disks. *)
Lemma disk_lost_after_unread_line_witness :
  probes_of
    (st_trace
       (probe_partitions (sample_header false) sample_externals
          (sample_world [] []) false
          ["8 16 2000 sdb" ++ nl; nl; "8 32 2000 sdc" ++ nl]%string
          (start empty_cache)))
  = [EvProbeOne "sdc" 2080 0 false].
Proof.
  apply (disk_lost_after_unread_line (sample_header false) sample_externals
           (sample_world [] []) false
           ("8 16 2000 sdb" ++ nl)%string (8, 16, 2000, "sdb") nl
           ("8 32 2000 sdc" ++ nl)%string (8, 32, 2000, "sdc")
           (start empty_cache)).
  - reflexivity.
  - reflexivity.
  - vm_compute. discriminate.
  - reflexivity.
Defined.

Lemma partition_probes_come_from_lines_witness :
  exists line ma mi sz,
    In line ["8 0 1000 sda" ++ nl; "8 1 500 sda1" ++ nl]%string
    /\ sscanf line fmt_partitions
       = (4, [VInt ma; VInt mi; VInt sz; VStr "sda1"])
    /\ 2049 = makedev (sample_header false) ma mi /\ 0 = 0 /\ false = false
    /\ (ends_in_digit "sda1" = true -> 1 < sz).
Proof.
  apply (partition_probes_come_from_lines (sample_header false)
           sample_externals (sample_world [] []) false
           ["8 0 1000 sda" ++ nl; "8 1 500 sda1" ++ nl]%string
           (start empty_cache) "sda1" 2049 0 false).
  - intros line ma mi sz nm [<- | [<- | []]] R; vm_compute in R;
      injection R as _ _ _ <-; unfold name_fits; simpl; lia.
  - simpl. tauto.
  - vm_compute. left. reflexivity.
Defined.

(** ** A pass of probe_all *)

Section Pass.

Variable H : blkid_header.
Variable W : world.
Variable only_if_new : bool.

Lemma dm_events_shape e :
  In e (dm_events H W only_if_new) ->
  e = EvDmList
  \/ exists ptname devno,
       e = EvProbeOne ptname devno (BLKID_PRI_DM H) only_if_new.
Proof.
  unfold dm_events. intros [<- | I]; [now left | right].
  destruct (negb (dm_task_create W)); [destruct I|].
  apply in_flat_map in I. destruct I as (d & _ & I).
  unfold dm_entry_events in I.
  destruct (_ =? 0); [destruct I|].
  destruct (negb _); [destruct I|].
  destruct I as [<- | []]. eauto.
Qed.

Lemma evms_events_shape e :
  In e (evms_events H W only_if_new) ->
  e = EvFopen PROC_EVMS_VOLUMES
  \/ exists ptname devno,
       e = EvProbeOne ptname devno (BLKID_PRI_EVMS H) only_if_new.
Proof.
  unfold evms_events. intros [<- | I]; [now left | right].
  destruct (fopen W PROC_EVMS_VOLUMES) as [content|]; [|destruct I].
  apply in_flat_map in I. destruct I as (line & _ & I).
  unfold evms_line_events in I.
  destruct (sscanf line fmt_evms) as [n vs].
  destruct (negb (n =? 4)); [destruct I|].
  destruct vs as [|[ma|] [|[mi|] [|[sz|] [|[|device] [|]]]]];
    try destruct I as [<- | []]; try destruct I.
  eauto.
Qed.

Lemma lvm_events_shape e :
  In e (lvm_events H W only_if_new) ->
  (exists path, e = EvOpendir path) \/ (exists path, e = EvFopen path)
  \/ exists ptname devno,
       e = EvProbeOne ptname devno (BLKID_PRI_LVM H) only_if_new.
Proof.
  unfold lvm_events. intros [<- | I]; [left; eauto|].
  destruct (opendir W VG_DIR) as [vg_list|]; [|destruct I].
  apply in_flat_map in I. destruct I as (vg_name & _ & I).
  unfold lvm_vg_events in I.
  destruct (is_dot_or_dotdot vg_name); [destruct I|].
  destruct I as [<- | I]; [left; eauto|].
  destruct (opendir W (VG_DIR ++ "/" ++ vg_name ++ "/LVs")%string)
    as [lv_list|]; [|destruct I].
  apply in_flat_map in I. destruct I as (lv_name & _ & I).
  unfold lvm_lv_events in I.
  destruct (is_dot_or_dotdot lv_name); [destruct I|].
  destruct I as [<- | [<- | []]]; [right; left; eauto | right; right; eauto].
Qed.

Lemma pt_events_shape lines e :
  In e (pt_events_from H only_if_new pt_init lines) ->
  exists ptname devno, e = EvProbeOne ptname devno 0 only_if_new.
Proof.
  intros I.
  assert (B : forall i, slot_of_line H [] pt_init i)
    by (intros [|] L; now contradiction L).
  destruct (pt_events_calls H only_if_new lines [] pt_init B _ I)
    as (line & [[[ma mi] sz] nm] & _ & _ & -> & _).
  simpl. eauto.
Qed.

Lemma partitions_events_shape e :
  In e (partitions_events H W only_if_new) ->
  e = EvFopen PROC_PARTITIONS
  \/ (e = EvFlushCache /\ fopen W PROC_PARTITIONS <> None)
  \/ exists ptname devno, e = EvProbeOne ptname devno 0 only_if_new.
Proof.
  unfold partitions_events. intros [<- | I]; [now left | right].
  destruct (fopen W PROC_PARTITIONS) as [content|]; [|destruct I].
  apply in_app_or in I. destruct I as [I | [<- | []]].
  - right. now apply (pt_events_shape (fgets_all 1024 content)).
  - left. split; [reflexivity | discriminate].
Qed.

Lemma calls_with_probes pri (l : list event) :
  (forall e, In e l ->
     is_probe e = true ->
     exists ptname devno, e = EvProbeOne ptname devno pri only_if_new) ->
  calls_with only_if_new pri (probes_of l).
Proof.
  intros P. apply Forall_forall. intros e I.
  apply filter_In in I. destruct I as [I B]. now apply P.
Qed.

Section WithExternals.

Variable X X' : externals.

(** X12. Leaf queries apart, what a pass that gets beyond the guard asks
    of the system, and in which order, is the same whatever the cache
    holds and whatever the collaborators do: the calls of [probe_one] and
    the sources opened are decided by the system and [only_if_new]
    alone. *)
Theorem pass_events_do_not_depend_on_cache now now' c c' :
  recently_probed H now c = false ->
  recently_probed H now' c' = false ->
  without_leaf_queries
    (st_trace (snd (probe_all H X W now only_if_new (start c))))
  = without_leaf_queries
      (st_trace (snd (probe_all H X' W now' only_if_new (start c')))).
Proof.
  intros G G'. rewrite !probe_all_events. simpl. now rewrite G, G'.
Qed.

(** X13. A pass that gets beyond the guard flushes the cache exactly when
    /proc/partitions could be opened, and then as the last thing it does,
    returning 0. When the report cannot be opened the pass returns the
    proc error without flushing, although the other sources have been
    probed by then. *)
Theorem pass_flushes_only_on_success now st :
  recently_probed H now (st_cache st) = false ->
  match fopen W PROC_PARTITIONS with
  | Some _ =>
      fst (probe_all H X W now only_if_new st) = 0
      /\ exists q,
           st_trace (snd (probe_all H X W now only_if_new st))
           = q ++ [EvFlushCache]
  | None =>
      fst (probe_all H X W now only_if_new st) = - BLKID_ERR_PROC H
      /\ (In EvFlushCache
            (st_trace (snd (probe_all H X W now only_if_new st))) ->
          In EvFlushCache (st_trace st))
  end.
Proof.
  intros G. pose proof (probe_all_events H X W only_if_new now st) as E.
  pose proof (probe_all_ret H X W now only_if_new st) as R.
  rewrite G in E, R.
  destruct (fopen W PROC_PARTITIONS) as [content|] eqn:F.
  - split; [exact R|]. unfold probe_all. rewrite G, F. simpl. eauto.
  - split; [exact R|]. intros I.
    apply (in_trace_added _ _ _ _ E) in I; [|reflexivity].
    destruct I as [I | I]; [exact I | exfalso].
    unfold pass_events in I. destruct I as [I | I]; [discriminate I|].
    apply in_app_or in I. destruct I as [I | I].
    { destruct (HAVE_DEVMAPPER H); [|destruct I].
      apply dm_events_shape in I.
      destruct I as [I | (? & ? & I)]; discriminate I. }
    apply in_app_or in I. destruct I as [I | I].
    { apply evms_events_shape in I.
      destruct I as [I | (? & ? & I)]; discriminate I. }
    apply in_app_or in I. destruct I as [I | I].
    { apply lvm_events_shape in I.
      destruct I as [(? & I) | [(? & I) | (? & ? & I)]]; discriminate I. }
    apply partitions_events_shape in I.
    destruct I as [I | [[_ I] | (? & ? & I)]];
      [discriminate I | congruence | discriminate I].
Qed.

(** X14. The calls of [probe_one] of a pass come in four blocks, in this
    order: those of the device-mapper prober (none where it is not
    compiled in), of the EVMS prober, of the LVM prober and of the
    partition-table prober, with the device-mapper, EVMS and LVM
    priorities and priority zero; every call carries the [only_if_new] of
    the pass. *)
Theorem pass_probes_in_source_order now st :
  recently_probed H now (st_cache st) = false ->
  exists qd qe ql qp,
    probes_of (st_trace (snd (probe_all H X W now only_if_new st)))
    = probes_of (st_trace st) ++ qd ++ qe ++ ql ++ qp
    /\ calls_with only_if_new (BLKID_PRI_DM H) qd
    /\ (HAVE_DEVMAPPER H = true \/ qd = [])
    /\ calls_with only_if_new (BLKID_PRI_EVMS H) qe
    /\ calls_with only_if_new (BLKID_PRI_LVM H) ql
    /\ calls_with only_if_new 0 qp.
Proof.
  intros G.
  exists (probes_of (if HAVE_DEVMAPPER H then dm_events H W only_if_new
                     else [])),
    (probes_of (evms_events H W only_if_new)),
    (probes_of (lvm_events H W only_if_new)),
    (probes_of (partitions_events H W only_if_new)).
  split.
  { rewrite <- (probes_without_leaf_queries (st_trace (snd _))).
    rewrite probe_all_events, G, probes_of_app,
      probes_without_leaf_queries.
    unfold pass_events. cbn [probes_of filter is_probe].
    fold (probes_of
            ((if HAVE_DEVMAPPER H then dm_events H W only_if_new else [])
             ++ evms_events H W only_if_new ++ lvm_events H W only_if_new
             ++ partitions_events H W only_if_new)).
    now rewrite !probes_of_app. }
  split.
  { apply calls_with_probes. intros e I P.
    destruct (HAVE_DEVMAPPER H); [|destruct I].
    apply dm_events_shape in I. destruct I as [-> | I];
      [discriminate P | exact I]. }
  split.
  { destruct (HAVE_DEVMAPPER H); [now left | now right]. }
  split.
  { apply calls_with_probes. intros e I P.
    apply evms_events_shape in I. destruct I as [-> | I];
      [discriminate P | exact I]. }
  split.
  { apply calls_with_probes. intros e I P.
    apply lvm_events_shape in I.
    destruct I as [(? & ->) | [(? & ->) | I]];
      [discriminate P | discriminate P | exact I]. }
  apply calls_with_probes. intros e I P.
  apply partitions_events_shape in I.
  destruct I as [-> | [[-> _] | I]];
    [discriminate P | discriminate P | exact I].
Qed.

End WithExternals.

End Pass.

Lemma pass_events_do_not_depend_on_cache_witness :
  without_leaf_queries
    (st_trace
       (snd (probe_all (sample_header true) sample_externals stacked_world
               1000 true (start empty_cache))))
  = without_leaf_queries
      (st_trace
         (snd (probe_all (sample_header true) sample_externals stacked_world
                 5000 true (start (cache_of [sda_dev 5; md0_dev]))))).
Proof.
  apply (pass_events_do_not_depend_on_cache (sample_header true)
           stacked_world true sample_externals sample_externals
           1000 5000 empty_cache (cache_of [sda_dev 5; md0_dev]));
    reflexivity.
Defined.

Lemma pass_flushes_only_on_success_witness :
  fst (probe_all (sample_header false) sample_externals lvm_world 1000
         false (start empty_cache)) = -9
  /\ (In EvFlushCache
        (st_trace
           (snd (probe_all (sample_header false) sample_externals lvm_world
                   1000 false (start empty_cache)))) ->
      In EvFlushCache (st_trace (start empty_cache))).
Proof.
  exact (pass_flushes_only_on_success (sample_header false) lvm_world false
           sample_externals 1000 (start empty_cache) eq_refl).
Defined.

Lemma pass_probes_in_source_order_witness :
  exists qd qe ql qp,
    probes_of
      (st_trace
         (snd (probe_all (sample_header false) sample_externals lvm_world
                 1000 false (start empty_cache))))
    = probes_of (st_trace (start empty_cache)) ++ qd ++ qe ++ ql ++ qp
    /\ calls_with false (BLKID_PRI_DM (sample_header false)) qd
    /\ (HAVE_DEVMAPPER (sample_header false) = true \/ qd = [])
    /\ calls_with false (BLKID_PRI_EVMS (sample_header false)) qe
    /\ calls_with false (BLKID_PRI_LVM (sample_header false)) ql
    /\ calls_with false 0 qp.
Proof.
  apply (pass_probes_in_source_order (sample_header false) lvm_world false
           sample_externals 1000 (start empty_cache)).
  reflexivity.
Defined.

(** ** probe_one: what it leaves alone *)

Section Resolver.

Variable H : blkid_header.
Variable X : externals.
Variable W : world.

Lemma scan_devno_end devs :
  forall i devno only_if_new tr,
  (forall r, In r devs -> bid_devno r <> devno) ->
  fst (scan_devno H W devs i devno only_if_new tr) = ScanEnd.
Proof.
  induction devs as [|tmp rest IH]; intros i devno oin tr N; simpl;
    [reflexivity|].
  assert (E : (bid_devno tmp =? devno) = false)
    by (apply Z.eqb_neq, N; now left).
  rewrite E.
  assert (N' : forall r, In r rest -> bid_devno r <> devno)
    by (intros r I; apply N; now right).
  destruct (HAVE_DEVMAPPER H); [|now apply IH].
  destruct (negb (dm_device_is_leaf W devno)); now apply IH.
Qed.

Lemma dev_has_devno_none cache dev devno :
  (forall r, In r (bic_devs cache) -> bid_devno r <> devno) ->
  dev_has_devno cache dev devno = false.
Proof.
  intros N. unfold dev_has_devno, get_dev.
  destruct dev as [d|]; [|reflexivity].
  destruct (nth_error (bic_devs cache) d) as [r|] eqn:G; [|reflexivity].
  apply Z.eqb_neq, N. eapply nth_error_In, G.
Qed.

Lemma search_devdirs_end dirs cache ptname devno :
  flag_set (BLKID_DEV_FIND H) (BLKID_DEV_CREATE H) = false ->
  flag_set (BLKID_DEV_FIND H) (BLKID_DEV_VERIFY H) = false ->
  (forall r, In r (bic_devs cache) -> bid_devno r <> devno) ->
  (forall dir s,
     In dir dirs -> stat W (dir ++ "/" ++ ptname)%string = Some s ->
     st_isblk s && (st_rdev s =? devno) = false) ->
  search_devdirs H X W dirs cache ptname devno = (DirsEnd, cache).
Proof.
  intros C V N. induction dirs as [|dir dirs IH]; intros S;
    cbn [search_devdirs]; [reflexivity|].
  assert (G : blkid_get_dev H X cache (dir ++ "/" ++ ptname)%string
                (BLKID_DEV_FIND H)
              = (find_devname (bic_devs cache) (dir ++ "/" ++ ptname)%string
                   0, cache)).
  { unfold blkid_get_dev. rewrite C, V.
    now destruct (find_devname _ _ _). }
  rewrite G, (dev_has_devno_none cache _ devno N).
  assert (IH' : search_devdirs H X W dirs cache ptname devno
                = (DirsEnd, cache))
    by (apply IH; intros d s I; apply S; now right).
  destruct (stat W (dir ++ "/" ++ ptname)%string) as [s|] eqn:St;
    [|exact IH'].
  rewrite (S dir s (or_introl eq_refl) St). exact IH'.
Qed.

(** X15. A device that cannot be resolved leaves the cache as it was, and
    [probe_one] returns without reaching [set_pri]: no record of the cache
    has the device number, none of the device directories holds a block
    device of that number under the name, and the search by device number
    finds nothing. (BLKID_DEV_FIND asks for no creation and no
    verification.) *)
Theorem probe_one_unresolved_leaves_cache ptname devno pri only_if_new st :
  flag_set (BLKID_DEV_FIND H) (BLKID_DEV_CREATE H) = false ->
  flag_set (BLKID_DEV_FIND H) (BLKID_DEV_VERIFY H) = false ->
  (forall r, In r (bic_devs (st_cache st)) -> bid_devno r <> devno) ->
  (forall dir s,
     In dir (blkid_devdirs X) ->
     stat W (dir ++ "/" ++ ptname)%string = Some s ->
     st_isblk s && (st_rdev s =? devno) = false) ->
  blkid_devno_to_devname X devno = None ->
  fst (probe_one_run H X W ptname devno pri only_if_new st) = Return
  /\ st_cache (probe_one H X W ptname devno pri only_if_new st)
     = st_cache st.
Proof.
  intros C V N S D. unfold probe_one, probe_one_run, probe_one_resolve.
  pose proof (scan_devno_end (bic_devs (st_cache st)) 0 devno only_if_new
                (st_trace st ++ [EvProbeOne ptname devno pri only_if_new])
                N) as E.
  simpl. destruct (scan_devno _ _ _ _ _ _ _) as [o tr]. simpl in E.
  subst o.
  rewrite (dev_has_devno_none (st_cache st) None devno N).
  rewrite (search_devdirs_end _ _ _ _ C V N S), D. simpl. auto.
Qed.

Lemma scan_devno_break devs :
  forall i k devno tr r,
  HAVE_DEVMAPPER H = false \/ dm_device_is_leaf W devno = true ->
  nth_error devs k = Some r -> bid_devno r = devno ->
  (forall j r', (j < k)%nat -> nth_error devs j = Some r' ->
                bid_devno r' <> devno) ->
  fst (scan_devno H W devs i devno false tr) = ScanBreak (i + k).
Proof.
  induction devs as [|tmp rest IH]; intros i k devno tr r L G E F.
  - destruct k; discriminate G.
  - simpl.
    assert (C : forall tr',
               fst (if bid_devno tmp =? devno then (ScanBreak i, tr')
                    else scan_devno H W rest (S i) devno false tr')
               = ScanBreak (i + k)).
    { intros tr'. destruct k as [|k]; simpl in G.
      - injection G as ->. apply Z.eqb_eq in E. rewrite E. simpl.
        f_equal. lia.
      - assert (B : (bid_devno tmp =? devno) = false).
        { apply Z.eqb_neq. apply (F 0%nat tmp); [lia | reflexivity]. }
        rewrite B. rewrite (IH (S i) k devno tr' r L G E).
        + f_equal. lia.
        + intros j r' Lj Gj. apply (F (S j) r'); [lia | exact Gj]. }
    destruct (HAVE_DEVMAPPER H); [|apply C].
    destruct L as [L | L]; [discriminate|]. rewrite L. apply C.
Qed.

(** X16. When the cache holds a record with the device number asked for
    (and, with device-mapper support, the number is a leaf) and the
    verification of the first such record confirms it as it is,
    [probe_one] without [only_if_new] writes the priority of that record
    and nothing else: the hint, or the RAID priority for a zero hint and a
    name that begins with "md". *)
Theorem probe_one_writes_only_priority ptname devno pri st i r :
  HAVE_DEVMAPPER H = false \/ dm_device_is_leaf W devno = true ->
  get_dev (st_cache st) i = Some r ->
  bid_devno r = devno ->
  (forall j r', (j < i)%nat -> get_dev (st_cache st) j = Some r' ->
                bid_devno r' <> devno) ->
  blkid_verify X (st_cache st) (Some i) = (st_cache st, Some i) ->
  st_cache (probe_one H X W ptname devno pri false st)
  = {| bic_devs :=
         list_set (bic_devs (st_cache st)) i
           {| bid_name := bid_name r; bid_devno := bid_devno r;
              bid_pri :=
                if (pri =? 0) && strncmp_is_zero ptname "md" 2
                then BLKID_PRI_MD H else pri;
              bid_time := bid_time r |};
       bic_flags := bic_flags (st_cache st);
       bic_time := bic_time (st_cache st) |}.
Proof.
  intros L G E F V. unfold probe_one, probe_one_run, probe_one_resolve.
  pose proof (scan_devno_break (bic_devs (st_cache st)) 0 i devno
                (st_trace st ++ [EvProbeOne ptname devno pri false]) r
                L G E F) as S.
  simpl. destruct (scan_devno _ _ _ _ _ _ _) as [o tr]. simpl in S.
  subst o. rewrite V.
  assert (D : dev_has_devno (st_cache st) (Some i) devno = true).
  { unfold dev_has_devno. rewrite G. now apply Z.eqb_eq. }
  rewrite D. simpl. unfold set_pri, set_bid_pri. rewrite G. reflexivity.
Qed.

End Resolver.

Lemma probe_one_unresolved_leaves_cache_witness :
  fst (probe_one_run (sample_header false) sample_externals
         (sample_world [] []) "sdb" 2064 0 false
         (start (cache_of [sda_dev 5]))) = Return
  /\ st_cache (probe_one (sample_header false) sample_externals
                 (sample_world [] []) "sdb" 2064 0 false
                 (start (cache_of [sda_dev 5])))
     = st_cache (start (cache_of [sda_dev 5])).
Proof.
  apply (probe_one_unresolved_leaves_cache (sample_header false)
           sample_externals (sample_world [] []) "sdb" 2064 0 false
           (start (cache_of [sda_dev 5]))).
  - reflexivity.
  - reflexivity.
  - intros r [<- | []]. discriminate.
  - intros dir s _ St. discriminate St.
  - reflexivity.
Defined.

Lemma probe_one_writes_only_priority_witness :
  st_cache (probe_one (sample_header false) sample_externals
              (sample_world [] []) "sda" 2048 40 false
              (start (cache_of [md0_dev; sda_dev 5])))
  = cache_of [md0_dev; sda_dev 40].
Proof.
  apply (probe_one_writes_only_priority (sample_header false)
           sample_externals (sample_world [] []) "sda" 2048 40
           (start (cache_of [md0_dev; sda_dev 5])) 1 (sda_dev 5)).
  - left. reflexivity.
  - reflexivity.
  - reflexivity.
  - intros [|j] r' Lj Gj; [|lia]. injection Gj as <-. discriminate.
  - reflexivity.
Defined.

(** ** The lines of /proc/partitions and of the LVM files *)

Lemma dull_token t s :
  is_token t = true -> is_decimal t = true -> boundary s = true ->
  scan_directive DUll (t ++ s) = Matched (Some (VInt (ull_of_token t))) s.
Proof.
  intros T D B. unfold scan_directive. rewrite (skip_space_token t s T).
  destruct (scan_number_token t s D B) as (neg & m & E1 & E2).
  unfold ull_of_token. rewrite E1.
  destruct t as [|c t]; [discriminate|].
  change (String c t ++ s)%string with (String c (t ++ s)) in *.
  cbv beta iota. now rewrite E2.
Qed.

Lemma field_ull w t w' r fmt :
  all_chars isspace w = true ->
  wf_tokens ((t, w') :: r) = true ->
  is_decimal t = true ->
  scan_format (DSpace :: DUll :: fmt) (w ++ render ((t, w') :: r))
  = let '(vs, conv, f) := scan_format fmt (w' ++ render r) in
    (VInt (ull_of_token t) :: vs, true, f).
Proof.
  intros A F D. destruct (wf_tokens_inv t w' r F) as (T & A' & B & F').
  cbn [scan_format]. rewrite (dspace_sep w _ A F).
  cbn [render]. rewrite (dull_token t _ T D B).
  destruct (scan_format fmt _) as [[vs conv] f]. reflexivity.
Qed.

Lemma scan_set_width t :
  forall n s,
  all_chars (fun c => negb (isspace c)) t = true ->
  (String.length t <= n)%nat -> name_ends s = true ->
  scan_set (Some n) path_set (t ++ s) = (t, s).
Proof.
  induction t as [|c t IH]; intros n s A L E.
  - simpl. destruct s as [|c s]; [reflexivity|].
    simpl in E. apply negb_true_iff in E.
    cbn [scan_set]. rewrite E. now destruct n.
  - simpl in A, L. apply andb_true_iff in A. destruct A as [C A].
    apply negb_true_iff in C.
    destruct n as [|n]; [lia|].
    change (String c t ++ s)%string with (String c (t ++ s)).
    cbn [scan_set]. rewrite (nonspace_in_path_set c C).
    cbn [option_map Nat.pred].
    rewrite (IH n s A); [reflexivity | lia | exact E].
Qed.

Lemma field_name w t w' r :
  all_chars isspace w = true ->
  wf_tokens ((t, w') :: r) = true ->
  (String.length t <= 128)%nat ->
  name_ends (w' ++ render r) = true ->
  scan_format [DSpace; DScanset (Some 128%nat) path_set]
    (w ++ render ((t, w') :: r))
  = ([VStr t], true, None).
Proof.
  intros A F L E. destruct (wf_tokens_inv t w' r F) as (T & A' & B & F').
  cbn [scan_format]. rewrite (dspace_sep w _ A F).
  cbn [render]. unfold scan_directive.
  unfold is_token in T. apply andb_true_iff in T. destruct T as [N T].
  rewrite (scan_set_width t 128 _ T L E).
  destruct t as [|c t]; [discriminate|]. reflexivity.
Qed.

(** X17. How a line of the partition report is read. Take a line whose
    first three tokens, as far as it has them, are decimal integers. With
    fewer than four tokens the line is not read and the loop goes on to
    the next. With four tokens or more, the fourth one fitting the name
    buffer (fewer than 128 characters) and followed by a blank, a newline
    or the end of the line, the line reads as the major and minor numbers,
    the size and the name those tokens spell. *)
Theorem partition_line_is_read w0 toks :
  all_chars isspace w0 = true ->
  wf_tokens toks = true ->
  forallb is_decimal (firstn 3 (map fst toks)) = true ->
  if (4 <=? List.length toks)%nat
  then
    name_fits (token toks 3) ->
    name_ends (separator toks 3 ++ render (skipn 4 toks)) = true ->
    reads_as (w0 ++ render toks)
      (int_of_token (token toks 0), int_of_token (token toks 1),
       ull_of_token (token toks 2), token toks 3)
  else fst (sscanf (w0 ++ render toks) fmt_partitions) <> 4.
Proof.
  intros A0 F0 D. unfold reads_as, sscanf, fmt_partitions.
  change [newline; " "%char] with path_set.
  destruct toks as [|[t1 w1] r1];
    [rewrite (field_end w0) by auto; simpl; discriminate|].
  simpl in D. apply andb_true_iff in D. destruct D as [D1 D].
  rewrite (field_int w0 t1 w1 r1 _ A0 F0 D1).
  destruct (wf_tokens_inv _ _ _ F0) as (_ & A1 & _ & F1).
  destruct r1 as [|[t2 w2] r2];
    [rewrite (field_end w1) by auto; simpl; discriminate|].
  simpl in D. apply andb_true_iff in D. destruct D as [D2 D].
  rewrite (field_int w1 t2 w2 r2 _ A1 F1 D2).
  destruct (wf_tokens_inv _ _ _ F1) as (_ & A2 & _ & F2).
  destruct r2 as [|[t3 w3] r3].
  { assert (Z0 : scan_format [DSpace; DUll; DSpace;
                               DScanset (Some 128%nat) path_set]
                   (w2 ++ render []) = ([], false, Some InputFailure)).
    { cbn [scan_format render]. unfold scan_directive at 1.
      now rewrite (skip_space_blank w2 A2). }
    rewrite Z0. simpl. discriminate. }
  simpl in D. apply andb_true_iff in D. destruct D as [D3 _].
  rewrite (field_ull w2 t3 w3 r3 _ A2 F2 D3).
  destruct (wf_tokens_inv _ _ _ F2) as (_ & A3 & _ & F3).
  destruct r3 as [|[t4 w4] r4].
  { assert (Z0 : scan_format [DSpace; DScanset (Some 128%nat) path_set]
                   (w3 ++ render []) = ([], false, Some InputFailure)).
    { cbn [scan_format render]. unfold scan_directive at 1.
      now rewrite (skip_space_blank w3 A3). }
    rewrite Z0. simpl. discriminate. }
  cbn [Nat.leb List.length]. intros L E.
  assert (L' : (String.length t4 <= 128)%nat)
    by (apply Nat.lt_le_incl; exact L).
  rewrite (field_name w3 t4 w4 r4 A3 F3 L' E).
  reflexivity.
Qed.

Lemma digit_not_space c : isdigit c = true -> isspace c = false.
Proof.
  intros D. destruct (isspace c) eqn:S; [|reflexivity].
  rewrite (space_not_digit c S) in D. discriminate D.
Qed.

Lemma scan_digits_stop d s :
  all_chars isdigit d = true -> starts_with_digit s = false ->
  forall acc, scan_digits acc (d ++ s) = (fst (scan_digits acc d), s).
Proof.
  intros A B. induction d as [|c d IH]; intros acc; simpl in *.
  - destruct s as [|c s]; simpl in *; [reflexivity | now rewrite B].
  - apply andb_true_iff in A. destruct A as [C A]. rewrite C. now apply IH.
Qed.

Lemma scan_number_stop t s :
  is_decimal t = true -> starts_with_digit s = false ->
  scan_number (t ++ s)
  = match scan_number t with
    | Some (neg, m, _) => Some (neg, m, s)
    | None => None
    end
  /\ scan_number t <> None
  /\ skip_space (t ++ s) = (t ++ s)%string.
Proof.
  intros D B.
  assert (G : forall d (neg : bool), all_digits d = true ->
            (if starts_with_digit (d ++ s)
             then let '(m, rest) := scan_digits 0 (d ++ s) in
                  Some (neg, m, rest)
             else None)
            = match (if starts_with_digit d
                     then let '(m, rest) := scan_digits 0 d in
                          Some (neg, m, rest)
                     else None) with
              | Some (neg, m, _) => Some (neg, m, s)
              | None => None
              end
            /\ (if starts_with_digit d
                then let '(m, rest) := scan_digits 0 d in
                     Some (neg, m, rest)
                else None) <> None).
  { intros d neg A. rewrite (starts_with_digit_app d s A).
    assert (A' := A). unfold all_digits in A'.
    apply andb_true_iff in A'. destruct A' as [N A'].
    rewrite (scan_digits_stop d s A' B 0).
    destruct d as [|c d]; [discriminate|].
    assert (S : starts_with_digit (String c d) = true)
      by (simpl in *; now apply andb_true_iff in A').
    rewrite S. destruct (scan_digits 0 (String c d)) as [m rest].
    simpl. split; [reflexivity | discriminate]. }
  destruct t as [|c t]; [discriminate|].
  change (String c t ++ s)%string with (String c (t ++ s)).
  unfold is_decimal in D. unfold scan_number. cbv beta iota.
  assert (NS : isspace c = false).
  { destruct (Ascii.eqb_spec c "-"%char) as [-> | _]; [reflexivity|].
    destruct (Ascii.eqb_spec c "+"%char) as [-> | _]; [reflexivity|].
    unfold all_digits in D. simpl in D.
    apply andb_true_iff in D. now apply digit_not_space. }
  cbn [skip_space]. rewrite NS.
  destruct (Ascii.eqb c "-").
  - destruct (G t true D) as [G1 G2]. auto.
  - destruct (Ascii.eqb c "+").
    + destruct (G t false D) as [G1 G2]. auto.
    + destruct (G (String c t) false D) as [G1 G2]. auto.
Qed.

Lemma dint_stop w t s :
  all_chars isspace w = true -> is_decimal t = true ->
  starts_with_digit s = false ->
  scan_directive DInt (w ++ t ++ s)
  = Matched (Some (VInt (int_of_token t))) s.
Proof.
  intros A D B. unfold scan_directive. rewrite (skip_space_app w _ A).
  destruct (scan_number_stop t s D B) as (E1 & E2 & E3). rewrite E3.
  unfold int_of_token.
  destruct t as [|c t]; [discriminate|].
  change (String c t ++ s)%string with (String c (t ++ s)) in *.
  cbv beta iota. rewrite E1.
  destruct (scan_number (String c t)) as [[[neg m] rest]|];
    [reflexivity | congruence].
Qed.

Lemma scan_format_literal (lit : string) (fmt : list directive) (s : string) :
  scan_format (literal lit ++ fmt) (lit ++ s) = scan_format fmt s.
Proof.
  induction lit as [|c lit IH]; [reflexivity|].
  unfold literal in *. cbn [list_ascii_of_string map app scan_format].
  change (String c lit ++ s)%string with (String c (lit ++ s)).
  cbn [scan_directive]. rewrite Ascii.eqb_refl, IH.
  now destruct (scan_format fmt s) as [[vs conv] f].
Qed.

Lemma scan_format_lvm_numbers w t1 t2 rest :
  all_chars isspace w = true ->
  is_decimal t1 = true -> is_decimal t2 = true ->
  starts_with_digit rest = false ->
  scan_format [DSpace; DInt; DChar ":"%char; DInt]
    (w ++ t1 ++ ":" ++ t2 ++ rest)
  = ([VInt (int_of_token t1); VInt (int_of_token t2)], true, None).
Proof.
  intros A D1 D2 B.
  assert (P0 : scan_directive DSpace (w ++ t1 ++ ":" ++ t2 ++ rest)
               = Matched None (t1 ++ ":" ++ t2 ++ rest)).
  { unfold scan_directive. rewrite (skip_space_app w _ A).
    destruct (scan_number_stop t1 (":" ++ t2 ++ rest) D1 eq_refl)
      as (_ & _ & S1).
    now rewrite S1. }
  assert (P1 : scan_directive DInt (t1 ++ ":" ++ t2 ++ rest)
               = Matched (Some (VInt (int_of_token t1)))
                   (":" ++ t2 ++ rest))
    by exact (dint_stop "" t1 (":" ++ t2 ++ rest) eq_refl D1 eq_refl).
  assert (P2 : scan_directive (DChar ":"%char) (":" ++ t2 ++ rest)
               = Matched None (t2 ++ rest)) by reflexivity.
  assert (P3 : scan_directive DInt (t2 ++ rest)
               = Matched (Some (VInt (int_of_token t2))) rest)
    by exact (dint_stop "" t2 rest eq_refl D2 B).
  cbn [scan_format]. rewrite P0, P1, P2, P3. reflexivity.
Qed.

Section LvmLine.

Variable H : blkid_header.

(** X18. How a line of a volume's file is matched. A line that starts
    with "device:", then white space (or none), a decimal integer, a colon
    and a second decimal integer gives the device number made of the two,
    whatever follows that is no digit, and ends the reading of the file.
    The pattern has to start the line: a line that begins with any other
    character than "d" does not match. *)
Theorem lvm_device_line_is_matched w t1 t2 rest post :
  all_chars isspace w = true ->
  is_decimal t1 = true -> is_decimal t2 = true ->
  starts_with_digit rest = false ->
  sscanf ("device:" ++ w ++ t1 ++ ":" ++ t2 ++ rest) fmt_lvm
  = (2, [VInt (int_of_token t1); VInt (int_of_token t2)])
  /\ lvm_scan_lines H
       (("device:" ++ w ++ t1 ++ ":" ++ t2 ++ rest)%string :: post)
     = makedev H (int_of_token t1) (int_of_token t2)
  /\ forall c s, c <> "d"%char ->
                 fst (sscanf (String c s) fmt_lvm) <> 2.
Proof.
  intros A D1 D2 B.
  assert (E : sscanf ("device:" ++ w ++ t1 ++ ":" ++ t2 ++ rest) fmt_lvm
              = (2, [VInt (int_of_token t1); VInt (int_of_token t2)])).
  { unfold sscanf, fmt_lvm.
    rewrite scan_format_literal,
      (scan_format_lvm_numbers w t1 t2 rest A D1 D2 B).
    reflexivity. }
  split; [exact E|]. split.
  - cbn [lvm_scan_lines]. now rewrite E.
  - intros c s N. unfold sscanf, fmt_lvm.
    cbn [literal list_ascii_of_string map app scan_format scan_directive].
    apply Ascii.eqb_neq in N. rewrite N. simpl. discriminate.
Qed.

End LvmLine.

Lemma partition_line_is_read_witness :
  reads_as ("   8        1        500 sda1" ++ nl) (8, 1, 500, "sda1").
Proof.
  refine (partition_line_is_read "   "
            [("8", "        "); ("1", "        "); ("500", " ");
             ("sda1", nl)] eq_refl eq_refl eq_refl _ eq_refl).
  unfold name_fits. simpl. lia.
Defined.

Lemma lvm_device_line_is_matched_witness :
  sscanf ("device:       58:3" ++ nl) fmt_lvm = (2, [VInt 58; VInt 3])
  /\ lvm_scan_lines (sample_header false)
       ["device:       58:3" ++ nl; "device:       58:4" ++ nl]%string
     = makedev (sample_header false) 58 3
  /\ forall c s, c <> "d"%char ->
                 fst (sscanf (String c s) fmt_lvm) <> 2.
Proof.
  exact (lvm_device_line_is_matched (sample_header false) "       " "58" "3"
           nl ["device:       58:4" ++ nl]%string
           eq_refl eq_refl eq_refl eq_refl).
Defined.

Section NewDevice.

Variable H : blkid_header.
Variable X : externals.
Variable W : world.

(** X19. [only_if_new] only matters for a device number the cache already
    holds: for a number that no record of the cache has, [probe_one] ends
    the same way and leaves the same cache with the flag and without
    it. *)
Theorem only_if_new_same_for_new_device ptname devno pri st :
  (forall r, In r (bic_devs (st_cache st)) -> bid_devno r <> devno) ->
  fst (probe_one_run H X W ptname devno pri true st)
  = fst (probe_one_run H X W ptname devno pri false st)
  /\ st_cache (probe_one H X W ptname devno pri true st)
     = st_cache (probe_one H X W ptname devno pri false st).
Proof.
  intros N. unfold probe_one, probe_one_run, probe_one_resolve.
  pose proof (scan_devno_end H W (bic_devs (st_cache st)) 0 devno true
                (st_trace st ++ [EvProbeOne ptname devno pri true]) N)
    as E1.
  pose proof (scan_devno_end H W (bic_devs (st_cache st)) 0 devno false
                (st_trace st ++ [EvProbeOne ptname devno pri false]) N)
    as E2.
  simpl.
  destruct (scan_devno H W _ 0 devno true _) as [o1 tr1].
  destruct (scan_devno H W _ 0 devno false _) as [o2 tr2].
  simpl in E1, E2. subst o1 o2.
  destruct (dev_has_devno (st_cache st) None devno); [simpl; auto|].
  destruct (search_devdirs H X W (blkid_devdirs X) (st_cache st) ptname
              devno) as [d cache2].
  destruct d as [dev'|n|]; simpl; auto.
  - destruct (blkid_get_dev H X cache2 n (BLKID_DEV_NORMAL H))
      as [dev2 cache3]. simpl. auto.
  - destruct (blkid_devno_to_devname X devno) as [n|]; simpl; auto.
    destruct (blkid_get_dev H X cache2 n (BLKID_DEV_NORMAL H))
      as [dev2 cache3]. simpl. auto.
Qed.

End NewDevice.

(** A device node /dev/sdb that the cache does not know yet. *)
Lemma only_if_new_same_for_new_device_witness :
  fst (probe_one_run (sample_header false) sample_externals node_world
         "sdb" 2064 0 true (start (cache_of [sda_dev 5])))
  = fst (probe_one_run (sample_header false) sample_externals node_world
           "sdb" 2064 0 false (start (cache_of [sda_dev 5])))
  /\ st_cache
       (probe_one (sample_header false) sample_externals node_world
          "sdb" 2064 0 true (start (cache_of [sda_dev 5])))
     = st_cache
         (probe_one (sample_header false) sample_externals node_world
            "sdb" 2064 0 false (start (cache_of [sda_dev 5]))).
Proof.
  apply (only_if_new_same_for_new_device (sample_header false)
           sample_externals node_world "sdb" 2064 0
           (start (cache_of [sda_dev 5]))).
  intros r [<- | []]. discriminate.
Defined.
